(** * Portfolio Tracker: a shallow embedding of [PortfolioTracker]

    The Python class [PortfolioTracker] of [main_file.py] keeps three lists
    of holdings (stocks, bullions, forex) in a dictionary, writes that
    dictionary to a JSON file after every change, asks a market-data
    provider for prices and derives a table of valued positions with
    totals.

    Conventions of the embedding:
    - Python and numpy numbers are IEEE 754 binary64 values ([float], the
      kernel's primitive floats): products underflow, quotients by zero are
      infinite or not-a-number, sums are taken in the order of the code.
    - Python [str] is [string]; [str.upper] acts on the ASCII letters.
    - A method that may raise returns an [outcome]; a method that changes
      the tracker returns the new tracker next to its outcome, so the state
      left behind by a raised exception is visible.
    - The world outside the class is passed in: the market-data provider is
      a function from symbols to replies (one snapshot of the market per
      valuation pass), the clock is the timestamp string handed to an
      add-operation, the file system is the optional document stored under
      [portfolio_file] together with the fate of the next write, and the
      [json] module is a pair of functions between portfolios and
      documents. *)

From Stdlib Require Import ZArith List String Ascii Bool Lia Floats.
From Stdlib Require Import DecimalString.
Import ListNotations.

Local Set Warnings "-inexact-float".
Local Open Scope string_scope.
Local Open Scope float_scope.

(** ** Numbers *)

(** The integer nearest to [n / d] for a positive [d], ties going to the
    even neighbour: the rounding rule of fixed-point formatting. *)
Definition round_half_even (n d : Z) : Z :=
  let f := (n / d)%Z in
  let r := (n mod d)%Z in
  match (2 * r ?= d)%Z with
  | Lt => f
  | Gt => (f + 1)%Z
  | Eq => if Z.even f then f else (f + 1)%Z
  end.

Definition pow10 (ndigits : nat) : Z := (10 ^ Z.of_nat ndigits)%Z.

(** 2^52: from here on every binary64 value is an integer. *)
Definition two52 : float := 4503599627370496.

(** [rint]: the nearest integral value, ties to even, in the current
    rounding mode of the arithmetic (to nearest, ties to even).  Below 2^52
    adding and subtracting 2^52 rounds to an integer; zeros, large values,
    infinities and not-a-number are returned as they are. *)
Definition rint (x : float) : float :=
  if x =? 0 then x
  else if abs x <? two52 then
    if x <? 0 then - ((- x + two52) - two52) else (x + two52) - two52
  else x.

(** [round(x, 2)] on a [numpy.float64]: multiply by 10^2, [rint], divide by
    10^2, all in binary64. *)
Definition np_round2 (x : float) : float := rint (x * 100) / 100.

(** ** Strings *)

(** [str.upper] on the ASCII range. *)
Definition upper_ascii (c : ascii) : ascii :=
  let n := nat_of_ascii c in
  if ((97 <=? n) && (n <=? 122))%nat then ascii_of_nat (n - 32) else c.

Fixpoint upper (s : string) : string :=
  match s with
  | EmptyString => EmptyString
  | String c rest => String (upper_ascii c) (upper rest)
  end.

(** [s.endswith(suffix)]. *)
Definition endswith (s suffix : string) : bool :=
  let n := String.length s in
  let m := String.length suffix in
  if (m <=? n)%nat then String.eqb (substring (n - m) m s) suffix else false.

(** [s.replace(old, new)] for a non-empty [old]: the occurrences are found
    from left to right and do not overlap.  [skip] counts the characters of
    a found occurrence that are still to be dropped. *)
Fixpoint replace_from (old new : string) (skip : nat) (s : string) : string :=
  match s with
  | EmptyString => EmptyString
  | String c rest =>
      match skip with
      | S k => replace_from old new k rest
      | O =>
          if prefix old s
          then new ++ replace_from old new (String.length old - 1)%nat rest
          else String c (replace_from old new 0%nat rest)
      end
  end.

Definition replace (old new s : string) : string := replace_from old new 0%nat s.

(** Decimal digits of a natural number. *)
Definition digits (n : Z) : string :=
  NilZero.string_of_uint (N.to_uint (Z.to_N n)).

Fixpoint zeros (n : nat) : string :=
  match n with
  | O => EmptyString
  | S k => String "0" (zeros k)
  end.

(** The digits of [n / d], rounded to [ndigits] places after the point. *)
Definition fixed_point (ndigits : nat) (n d : Z) : string :=
  let scaled := round_half_even (n * pow10 ndigits) d in
  let whole := digits (scaled / pow10 ndigits) in
  let frac := digits (scaled mod pow10 ndigits) in
  let padded := zeros (ndigits - String.length frac) ++ frac in
  whole ++ (match ndigits with O => "" | S _ => "." ++ padded end).

(** The format specification [.{ndigits}f] of an f-string: the exact value
    of the binary64 number, rounded to [ndigits] places. *)
Definition format_f (ndigits : nat) (x : float) : string :=
  match Prim2SF x with
  | S754_nan => "nan"
  | S754_infinity s => if s then "-inf" else "inf"
  | S754_zero s => (if s then "-" else "") ++ fixed_point ndigits 0 1
  | S754_finite s m e =>
      (if s then "-" else "")
        ++ (if (0 <=? e)%Z
            then fixed_point ndigits (Zpos m * 2 ^ e) 1
            else fixed_point ndigits (Zpos m) (2 ^ (- e)))
  end.

(** ** Exceptions and outcomes *)

Inductive exn : Type :=
  | ZeroDivisionError
  | KeyError (key : string)
  | IndexError
  | OSError
  | JSONDecodeError.

Inductive outcome (A : Type) : Type :=
  | Returns (a : A)
  | Raises (e : exn).

Arguments Returns {A} a.
Arguments Raises {A} e.

Definition bind {A B : Type} (m : outcome A) (k : A -> outcome B) : outcome B :=
  match m with
  | Returns a => k a
  | Raises e => Raises e
  end.

Notation "x <- m ;; k" := (bind m (fun x => k))
  (at level 61, m at next level, right associativity).

(** [x / y] on Python's own [float]: a zero divisor raises. *)
Definition py_div (x y : float) : outcome float :=
  if y =? 0 then Raises ZeroDivisionError else Returns (x / y).

(** ** Data model *)

(** The dictionaries appended by [add_stock], [add_bullion], [add_forex]. *)
Record Stock : Type := {
  stock_symbol : string;
  stock_quantity : float;
  stock_purchase_price : float;
  stock_date_added : string
}.

Record Bullion : Type := {
  bullion_metal : string;
  bullion_symbol : string;
  bullion_quantity : float;
  bullion_purchase_price : float;
  bullion_date_added : string
}.

Record Forex : Type := {
  forex_pair : string;
  forex_quantity : float;
  forex_purchase_price : float;
  forex_date_added : string
}.

(** [self.portfolio]: the dictionary with the keys ['stocks'], ['bullions']
    and ['forex']. *)
Record Portfolio : Type := {
  stocks : list Stock;
  bullions : list Bullion;
  forex : list Forex
}.

Definition empty_portfolio : Portfolio :=
  {| stocks := []; bullions := []; forex := [] |}.

(** One row of the data frame built by [get_portfolio_data]. *)
Record Row : Type := {
  row_Type : string;
  row_Symbol : string;
  row_Quantity : float;
  row_Buy_Price : string;
  row_Current_Price : string;
  row_Invested : float;
  row_Current_Value : float;
  row_PnL : float;
  row_PnL_pct : float;
  row_Date_Added : string
}.

(** What [get_portfolio_data] returns: the data frame and the three totals. *)
Record Valuation : Type := {
  df : list Row;
  total_invested : float;
  total_current : float;
  total_pnl : float
}.

(** ** Price lookup *)

(** What [yf.Ticker(symbol).history(period='1d')] can do inside the [try]
    block: raise, give an empty frame, or give a frame whose last close is
    the [numpy.float64] value [close]. *)
Inductive provider_reply : Type :=
  | ProviderRaises
  | ProviderEmpty
  | ProviderClose (close : float).

Definition Provider : Type := string -> provider_reply.

Definition get_current_price (yf : Provider) (symbol : string) : float * string :=
  match yf symbol with
  | ProviderClose current_price => (np_round2 current_price, "Success")
  | ProviderEmpty => (0, "No data")
  | ProviderRaises => (0, "Error")
  end.

(** ** Valuation *)

(** The accumulators of [get_portfolio_data]. *)
Record Acc : Type := {
  all_holdings : list Row;
  acc_invested : float;
  acc_current : float
}.

Definition stock_row (stock : Stock) (current_price invested current_value pnl pnl_pct : float) : Row :=
  {| row_Type := "📈 Stock";
     row_Symbol := stock_symbol stock;
     row_Quantity := stock_quantity stock;
     row_Buy_Price := "$" ++ format_f 2 (stock_purchase_price stock);
     row_Current_Price := "$" ++ format_f 2 current_price;
     row_Invested := invested;
     row_Current_Value := current_value;
     row_PnL := pnl;
     row_PnL_pct := pnl_pct;
     row_Date_Added := stock_date_added stock |}.

Definition bullion_row (bullion : Bullion) (current_price invested current_value pnl pnl_pct : float) : Row :=
  {| row_Type := "🥇 Bullion";
     row_Symbol := bullion_metal bullion;
     row_Quantity := bullion_quantity bullion;
     row_Buy_Price := "$" ++ format_f 2 (bullion_purchase_price bullion);
     row_Current_Price := "$" ++ format_f 2 current_price;
     row_Invested := invested;
     row_Current_Value := current_value;
     row_PnL := pnl;
     row_PnL_pct := pnl_pct;
     row_Date_Added := bullion_date_added bullion |}.

Definition forex_row (fx : Forex) (current_price invested current_value pnl pnl_pct : float) : Row :=
  {| row_Type := "💱 Forex";
     row_Symbol := replace "=X" "" (forex_pair fx);
     row_Quantity := forex_quantity fx;
     row_Buy_Price := format_f 4 (forex_purchase_price fx);
     row_Current_Price := format_f 4 current_price;
     row_Invested := invested;
     row_Current_Value := current_value;
     row_PnL := pnl;
     row_PnL_pct := pnl_pct;
     row_Date_Added := forex_date_added fx |}.

Section Valuation.

Variable yf : Provider.

(** [for stock in self.portfolio['stocks']: ...].  The current price, when
    positive, is a [numpy.float64], and so are the current value and the
    P&L: the quotient [pnl / invested] is numpy's, which gives an infinity or
    not-a-number for a zero divisor and raises nothing. *)
Fixpoint process_stocks (l : list Stock) (acc : Acc) : Acc :=
  match l with
  | [] => acc
  | stock :: rest =>
      let symbol := stock_symbol stock in
      let qty := stock_quantity stock in
      let buy_price := stock_purchase_price stock in
      let (current_price, status) := get_current_price yf symbol in
      if 0 <? current_price then
        let invested := qty * buy_price in
        let current_value := qty * current_price in
        let pnl := current_value - invested in
        let pnl_pct := (pnl / invested) * 100 in
        process_stocks rest
          {| all_holdings := all_holdings acc
               ++ [stock_row stock current_price invested current_value pnl pnl_pct];
             acc_invested := acc_invested acc + invested;
             acc_current := acc_current acc + current_value |}
      else process_stocks rest acc
  end.

(** [for bullion in self.portfolio['bullions']: ...] *)
Fixpoint process_bullions (l : list Bullion) (acc : Acc) : Acc :=
  match l with
  | [] => acc
  | bullion :: rest =>
      let symbol := bullion_symbol bullion in
      let qty := bullion_quantity bullion in
      let buy_price := bullion_purchase_price bullion in
      let (current_price, status) := get_current_price yf symbol in
      if 0 <? current_price then
        let invested := qty * buy_price in
        let current_value := qty * current_price in
        let pnl := current_value - invested in
        let pnl_pct := (pnl / invested) * 100 in
        process_bullions rest
          {| all_holdings := all_holdings acc
               ++ [bullion_row bullion current_price invested current_value pnl pnl_pct];
             acc_invested := acc_invested acc + invested;
             acc_current := acc_current acc + current_value |}
      else process_bullions rest acc
  end.

(** [for fx in self.portfolio['forex']: ...] *)
Fixpoint process_forex (l : list Forex) (acc : Acc) : Acc :=
  match l with
  | [] => acc
  | fx :: rest =>
      let pair := forex_pair fx in
      let qty := forex_quantity fx in
      let buy_price := forex_purchase_price fx in
      let (current_price, status) := get_current_price yf pair in
      if 0 <? current_price then
        let invested := qty * buy_price in
        let current_value := qty * current_price in
        let pnl := current_value - invested in
        let pnl_pct := (pnl / invested) * 100 in
        process_forex rest
          {| all_holdings := all_holdings acc
               ++ [forex_row fx current_price invested current_value pnl pnl_pct];
             acc_invested := acc_invested acc + invested;
             acc_current := acc_current acc + current_value |}
      else process_forex rest acc
  end.

(** Nothing in the pass raises. *)
Definition get_portfolio_data (portfolio : Portfolio) : outcome Valuation :=
  let acc := {| all_holdings := []; acc_invested := 0; acc_current := 0 |} in
  let acc := process_stocks (stocks portfolio) acc in
  let acc := process_bullions (bullions portfolio) acc in
  let acc := process_forex (forex portfolio) acc in
  let total_invested := acc_invested acc in
  let total_current := acc_current acc in
  let total_pnl :=
    if 0 <? total_invested then total_current - total_invested else 0 in
  Returns {| df := all_holdings acc;
             total_invested := total_invested;
             total_current := total_current;
             total_pnl := total_pnl |}.

End Valuation.
(** ** The holding store *)

(** [list.pop(index)]: a negative index counts from the end; [None] stands
    for [IndexError]. *)
Definition list_pop {A : Type} (l : list A) (index : Z) : option (A * list A) :=
  let n := Z.of_nat (List.length l) in
  let i := if (index <? 0)%Z then (index + n)%Z else index in
  if ((0 <=? i) && (i <? n))%Z then
    match nth_error l (Z.to_nat i) with
    | Some x => Some (x, (firstn (Z.to_nat i) l ++ skipn (S (Z.to_nat i)) l)%list)
    | None => None
    end
  else None.

(** [symbol_map] of [add_bullion]. *)
Definition symbol_map : list (string * string) :=
  [("Gold", "GC=F"); ("Silver", "SI=F"); ("Platinum", "PL=F"); ("Palladium", "PA=F")].

(** [d[key]] on a dictionary literal; [None] stands for [KeyError]. *)
Fixpoint dict_get (d : list (string * string)) (key : string) : option string :=
  match d with
  | [] => None
  | (k, v) :: rest => if String.eqb k key then Some v else dict_get rest key
  end.

Definition set_stocks (p : Portfolio) (l : list Stock) : Portfolio :=
  {| stocks := l; bullions := bullions p; forex := forex p |}.

Definition set_bullions (p : Portfolio) (l : list Bullion) : Portfolio :=
  {| stocks := stocks p; bullions := l; forex := forex p |}.

Definition set_forex (p : Portfolio) (l : list Forex) : Portfolio :=
  {| stocks := stocks p; bullions := bullions p; forex := l |}.

Section Store.

(** The content of a file, and the [json] module between it and the
    dictionary. *)
Context {Doc : Type}.
Variable json_dump : Portfolio -> Doc.
Variable json_load : Doc -> option Portfolio.

(** What happens to the next [open(..., 'w')] / [json.dump]: it succeeds,
    the file cannot be opened (nothing is written), or the write breaks off
    and leaves [left_behind] in the file. *)
Inductive write_fate : Type :=
  | WriteOk
  | OpenFails
  | DumpFails (left_behind : Doc).

(** The tracker object and the file named by [portfolio_file] ([None]: the
    file does not exist). *)
Record Tracker : Type := {
  portfolio : Portfolio;
  file : option Doc
}.

Definition with_portfolio (t : Tracker) (p : Portfolio) : Tracker :=
  {| portfolio := p; file := file t |}.

Definition load_portfolio (on_disk : option Doc) : outcome Portfolio :=
  match on_disk with
  | Some doc =>
      match json_load doc with
      | Some p => Returns p
      | None => Raises JSONDecodeError
      end
  | None => Returns empty_portfolio
  end.

(** [PortfolioTracker(portfolio_file)] *)
Definition init (on_disk : option Doc) : outcome Tracker :=
  p <- load_portfolio on_disk ;;
  Returns {| portfolio := p; file := on_disk |}.

Definition save_portfolio (fate : write_fate) (t : Tracker) : outcome unit * Tracker :=
  match fate with
  | WriteOk =>
      (Returns tt, {| portfolio := portfolio t; file := Some (json_dump (portfolio t)) |})
  | OpenFails => (Raises OSError, t)
  | DumpFails left_behind =>
      (Raises OSError, {| portfolio := portfolio t; file := Some left_behind |})
  end.

(** [now] is [datetime.now().strftime('%Y-%m-%d %H:%M:%S')]. *)
Definition add_stock (fate : write_fate) (now : string)
    (symbol : string) (quantity purchase_price : float) (t : Tracker)
    : outcome unit * Tracker :=
  let p := portfolio t in
  let entry :=
    {| stock_symbol := upper symbol;
       stock_quantity := quantity;
       stock_purchase_price := purchase_price;
       stock_date_added := now |} in
  save_portfolio fate (with_portfolio t (set_stocks p (stocks p ++ [entry]))).

Definition add_bullion (fate : write_fate) (now : string)
    (metal : string) (quantity purchase_price : float) (t : Tracker)
    : outcome unit * Tracker :=
  let p := portfolio t in
  match dict_get symbol_map metal with
  | None => (Raises (KeyError metal), t)
  | Some symbol =>
      let entry :=
        {| bullion_metal := metal;
           bullion_symbol := symbol;
           bullion_quantity := quantity;
           bullion_purchase_price := purchase_price;
           bullion_date_added := now |} in
      save_portfolio fate (with_portfolio t (set_bullions p (bullions p ++ [entry])))
  end.

Definition add_forex (fate : write_fate) (now : string)
    (pair : string) (quantity purchase_price : float) (t : Tracker)
    : outcome unit * Tracker :=
  let p := portfolio t in
  let pair := if negb (endswith pair "=X") then upper pair ++ "=X" else pair in
  let entry :=
    {| forex_pair := pair;
       forex_quantity := quantity;
       forex_purchase_price := purchase_price;
       forex_date_added := now |} in
  save_portfolio fate (with_portfolio t (set_forex p (forex p ++ [entry]))).

(** [0 <= index < len(l)] *)
Definition index_in_range {A : Type} (index : Z) (l : list A) : bool :=
  ((0 <=? index) && (index <? Z.of_nat (List.length l)))%Z.

(** The tail of [remove_holding] once the list has been popped. *)
Definition save_and_return_true (fate : write_fate) (t : Tracker)
    : outcome bool * Tracker :=
  let (saved, t') := save_portfolio fate t in
  (_ <- saved ;; Returns true, t').

Definition remove_holding (fate : write_fate) (category : string) (index : Z)
    (t : Tracker) : outcome bool * Tracker :=
  let p := portfolio t in
  if String.eqb category "stocks" then
    if index_in_range index (stocks p) then
      match list_pop (stocks p) index with
      | Some (_, l) => save_and_return_true fate (with_portfolio t (set_stocks p l))
      | None => (Raises IndexError, t)
      end
    else (Returns false, t)
  else if String.eqb category "bullions" then
    if index_in_range index (bullions p) then
      match list_pop (bullions p) index with
      | Some (_, l) => save_and_return_true fate (with_portfolio t (set_bullions p l))
      | None => (Raises IndexError, t)
      end
    else (Returns false, t)
  else if String.eqb category "forex" then
    if index_in_range index (forex p) then
      match list_pop (forex p) index with
      | Some (_, l) => save_and_return_true fate (with_portfolio t (set_forex p l))
      | None => (Raises IndexError, t)
      end
    else (Returns false, t)
  else (Returns false, t).

Definition clear_portfolio (fate : write_fate) (t : Tracker) : outcome unit * Tracker :=
  save_portfolio fate (with_portfolio t empty_portfolio).

End Store.

(** ** Reading a valuation *)

(** A holding of any of the three categories. *)
Inductive Holding : Type :=
  | Equity (stock : Stock)
  | Metal (bullion : Bullion)
  | Currency (fx : Forex).

(** The holdings of a portfolio: stocks, then bullions, then forex, each in
    stored order. *)
Definition holdings (p : Portfolio) : list Holding :=
  (map Equity (stocks p) ++ map Metal (bullions p) ++ map Currency (forex p))%list.

(** The symbol a holding is looked up under. *)
Definition lookup_symbol (h : Holding) : string :=
  match h with
  | Equity stock => stock_symbol stock
  | Metal bullion => bullion_symbol bullion
  | Currency fx => forex_pair fx
  end.

Definition quantity (h : Holding) : float :=
  match h with
  | Equity stock => stock_quantity stock
  | Metal bullion => bullion_quantity bullion
  | Currency fx => forex_quantity fx
  end.

Definition purchase_price (h : Holding) : float :=
  match h with
  | Equity stock => stock_purchase_price stock
  | Metal bullion => bullion_purchase_price bullion
  | Currency fx => forex_purchase_price fx
  end.

(** quantity x purchase_price, the binary64 product. *)
Definition invested_in (h : Holding) : float := quantity h * purchase_price h.

(** The sum of a list of numbers, taken from 0 and from left to right, the
    way the pass accumulates its totals. *)
Definition total (l : list float) : float := fold_left PrimFloat.add l 0.

(** The number is an infinity or not-a-number. *)
Definition not_finite (x : float) : bool :=
  match Prim2SF x with
  | S754_nan | S754_infinity _ => true
  | S754_zero _ | S754_finite _ _ _ => false
  end.

(** The data model's invariants on the numbers of a holding. *)
Definition well_formed (h : Holding) : Prop :=
  (0 <? quantity h) = true /\ (0 <? purchase_price h) = true.

Section Reading.

Variable yf : Provider.

(** The price the lookup returns for a holding. *)
Definition fetched_price (h : Holding) : float :=
  fst (get_current_price yf (lookup_symbol h)).

(** The lookup returned a positive price. *)
Definition priced (h : Holding) : bool := 0 <? fetched_price h.

(** quantity x fetched price *)
Definition value_of (h : Holding) : float := quantity h * fetched_price h.

(** The holdings that enter the report. *)
Definition included (p : Portfolio) : list Holding := filter priced (holdings p).

(** The row of a holding. *)
Definition position (h : Holding) : Row :=
  let pnl := value_of h - invested_in h in
  let pnl_pct := pnl / invested_in h * 100 in
  match h with
  | Equity stock =>
      stock_row stock (fetched_price h) (invested_in h) (value_of h) pnl pnl_pct
  | Metal bullion =>
      bullion_row bullion (fetched_price h) (invested_in h) (value_of h) pnl pnl_pct
  | Currency fx =>
      forex_row fx (fetched_price h) (invested_in h) (value_of h) pnl pnl_pct
  end.

(** A holding on which the pass divides by zero: it is priced and its
    invested amount is zero. *)
Definition divides_by_zero (h : Holding) : bool :=
  priced h && (invested_in h =? 0).

(** The accumulators after the priced holdings among [hs] have been
    added to [acc], one after the other. *)
Definition extend (acc : Acc) (hs : list Holding) : Acc :=
  let entered := filter priced hs in
  {| all_holdings := all_holdings acc ++ map position entered;
     acc_invested := fold_left PrimFloat.add (map invested_in entered) (acc_invested acc);
     acc_current := fold_left PrimFloat.add (map value_of entered) (acc_current acc) |}.

End Reading.

(** The result of a pass from its rows and its two sums. *)
Definition report (rows : list Row) (invested current : float) : Valuation :=
  {| df := rows;
     total_invested := invested;
     total_current := current;
     total_pnl := if 0 <? invested then current - invested else 0 |}.

(** The rows of one category: the priced holdings of the stored list, in
    stored order. *)
Definition stock_positions (yf : Provider) (l : list Stock) : list Row :=
  map (fun stock => position yf (Equity stock))
      (filter (fun stock => priced yf (Equity stock)) l).

Definition bullion_positions (yf : Provider) (l : list Bullion) : list Row :=
  map (fun bullion => position yf (Metal bullion))
      (filter (fun bullion => priced yf (Metal bullion)) l).

Definition forex_positions (yf : Provider) (l : list Forex) : list Row :=
  map (fun fx => position yf (Currency fx))
      (filter (fun fx => priced yf (Currency fx)) l).

(** ** Reading a removal *)

(** The list without its element at position [i]. *)
Definition remove_nth {A : Type} (i : nat) (l : list A) : list A :=
  (firstn i l ++ skipn (S i) l)%list.

Definition known_category (category : string) : Prop :=
  category = "stocks" \/ category = "bullions" \/ category = "forex".

(** The current length of a category; an unknown category holds nothing. *)
Definition category_length (p : Portfolio) (category : string) : Z :=
  if String.eqb category "stocks" then Z.of_nat (List.length (stocks p))
  else if String.eqb category "bullions" then Z.of_nat (List.length (bullions p))
  else if String.eqb category "forex" then Z.of_nat (List.length (forex p))
  else 0%Z.

(** The index is valid for the category. *)
Definition valid_removal (p : Portfolio) (category : string) (index : Z) : Prop :=
  known_category category /\ (0 <= index < category_length p category)%Z.

(** The portfolio without the holding at position [i] of a category. *)
Definition without_holding (p : Portfolio) (category : string) (i : nat) : Portfolio :=
  if String.eqb category "stocks" then set_stocks p (remove_nth i (stocks p))
  else if String.eqb category "bullions" then set_bullions p (remove_nth i (bullions p))
  else if String.eqb category "forex" then set_forex p (remove_nth i (forex p))
  else p.

(** ** Sample data *)

(** A market in which AAPL closes at 150, TSLA at 120, gold at 2000, the
    pound at 1.25 and the Vietnamese dong at four thousandths of a cent, the
    euro pair has no data and every other lookup raises. *)
Definition sample_market : Provider :=
  fun symbol =>
    if String.eqb symbol "AAPL" then ProviderClose 150
    else if String.eqb symbol "TSLA" then ProviderClose 120
    else if String.eqb symbol "GC=F" then ProviderClose 2000
    else if String.eqb symbol "GBPUSD=X" then ProviderClose 1.25
    else if String.eqb symbol "VNDUSD=X" then ProviderClose 0.00004
    else if String.eqb symbol "EURUSD=X" then ProviderEmpty
    else ProviderRaises.

Definition sample_time : string := "2024-01-15 09:30:00".

Definition sample_stock (symbol : string) (quantity purchase_price : float) : Stock :=
  {| stock_symbol := symbol;
     stock_quantity := quantity;
     stock_purchase_price := purchase_price;
     stock_date_added := sample_time |}.

Definition sample_euro : Forex :=
  {| forex_pair := "EURUSD=X";
     forex_quantity := 1000;
     forex_purchase_price := 1.1;
     forex_date_added := sample_time |}.

(** One equity bought at 100 and a forex pair without a price. *)
Definition equity_and_euro : Portfolio :=
  {| stocks := [sample_stock "AAPL" 2 100]; bullions := []; forex := [sample_euro] |}.

(** One share sold short: the quantity is negative. *)
Definition short_sale : Portfolio :=
  {| stocks := [sample_stock "AAPL" (-1) 100]; bullions := []; forex := [] |}.

(** A lot so small that quantity x purchase price underflows: both numbers
    are positive and their binary64 product is 0. *)
Definition tiny_lot : Portfolio :=
  {| stocks := [sample_stock "AAPL" 1e-200 1e-200]; bullions := []; forex := [] |}.

(** A share recorded with a purchase price of zero. *)
Definition free_share : Portfolio :=
  {| stocks := [sample_stock "AAPL" 1 0]; bullions := []; forex := [] |}.

Definition sample_gold : Bullion :=
  {| bullion_metal := "Gold";
     bullion_symbol := "GC=F";
     bullion_quantity := 3;
     bullion_purchase_price := 1800;
     bullion_date_added := sample_time |}.

Definition sample_pound : Forex :=
  {| forex_pair := "GBPUSD=X";
     forex_quantity := 500;
     forex_purchase_price := 1;
     forex_date_added := sample_time |}.

(** Holdings of every category, some of them without a price. *)
Definition mixed_portfolio : Portfolio :=
  {| stocks := [sample_stock "AAPL" 2 100; sample_stock "NOPE" 1 10; sample_stock "TSLA" 1 90];
     bullions := [sample_gold];
     forex := [sample_euro; sample_pound] |}.

(** A store whose documents are the portfolios themselves. *)
Definition sample_dump (p : Portfolio) : Portfolio := p.
Definition sample_load (doc : Portfolio) : option Portfolio := Some doc.

Definition fresh_tracker : @Tracker Portfolio :=
  {| portfolio := empty_portfolio; file := None |}.

Definition tracker_of (p : Portfolio) : @Tracker Portfolio :=
  {| portfolio := p; file := Some p |}.

(** [c in s] for a character [c]. *)
Fixpoint contains_char (c : ascii) (s : string) : bool :=
  match s with
  | EmptyString => false
  | String c' rest => Ascii.eqb c' c || contains_char c rest
  end.

(** ** Reading the store by category *)

(** The holdings of one category in stored order; an unknown category holds
    nothing. *)
Definition category_holdings (p : Portfolio) (category : string) : list Holding :=
  if String.eqb category "stocks" then map Equity (stocks p)
  else if String.eqb category "bullions" then map Metal (bullions p)
  else if String.eqb category "forex" then map Currency (forex p)
  else [].

(** The form in which the add-operations store the texts of a holding: a
    stock symbol without lower-case letters, a bullion symbol taken from the
    symbol map for its metal, a forex pair that ends with "=X". *)
Definition normalised (h : Holding) : Prop :=
  match h with
  | Equity stock => upper (stock_symbol stock) = stock_symbol stock
  | Metal bullion =>
      dict_get symbol_map (bullion_metal bullion) = Some (bullion_symbol bullion)
  | Currency fx => endswith (forex_pair fx) "=X" = true
  end.

(** ** The dashboard header *)

(** [pnl_pct] of the summary cards:
    [(total_pnl / total_invested * 100) if total_invested > 0 else 0]. *)
Definition header_pnl_pct (total_pnl total_invested : float) : outcome float :=
  if 0 <? total_invested then
    ratio <- py_div total_pnl total_invested ;;
    Returns (ratio * 100)
  else Returns 0.

(** ** Sessions *)

(** A call of a mutating method, as the sidebar and the remove tab make
    them on the tracker kept in the session. *)
Inductive call : Type :=
  | AddStock (now symbol : string) (quantity purchase_price : float)
  | AddBullion (now metal : string) (quantity purchase_price : float)
  | AddForex (now pair : string) (quantity purchase_price : float)
  | RemoveHolding (category : string) (index : Z)
  | ClearPortfolio.

(** The numbers handed to an add-operation are positive. *)
Definition positive_numbers (c : call) : Prop :=
  match c with
  | AddStock _ _ quantity purchase_price
  | AddBullion _ _ quantity purchase_price
  | AddForex _ _ quantity purchase_price =>
      (0 <? quantity) = true /\ (0 <? purchase_price) = true
  | RemoveHolding _ _ | ClearPortfolio => True
  end.

Section Sessions.

Context {Doc : Type}.
Variable json_dump : Portfolio -> Doc.

(** The tracker a call leaves behind, whether it returns or raises. *)
Definition perform (fate : @write_fate Doc) (c : call) (t : @Tracker Doc) : @Tracker Doc :=
  match c with
  | AddStock now symbol quantity purchase_price =>
      snd (add_stock json_dump fate now symbol quantity purchase_price t)
  | AddBullion now metal quantity purchase_price =>
      snd (add_bullion json_dump fate now metal quantity purchase_price t)
  | AddForex now fx_pair quantity purchase_price =>
      snd (add_forex json_dump fate now fx_pair quantity purchase_price t)
  | RemoveHolding category index =>
      snd (remove_holding json_dump fate category index t)
  | ClearPortfolio => snd (clear_portfolio json_dump fate t)
  end.

(** The tracker after a sequence of calls, each with the fate of its write. *)
Fixpoint session (steps : list (@write_fate Doc * call)) (t : @Tracker Doc) : @Tracker Doc :=
  match steps with
  | [] => t
  | (fate, c) :: rest => session rest (perform fate c t)
  end.

End Sessions.

(** ** Facts about numbers, strings and lists *)

Example format_f_2 : format_f 2 1.5 = "1.50". Proof. reflexivity. Qed.
Example format_f_4 : format_f 4 1.0856 = "1.0856". Proof. reflexivity. Qed.
Example format_f_neg : format_f 2 (-0.001) = "-0.00". Proof. reflexivity. Qed.
Example format_f_tie : format_f 2 0.125 = "0.12". Proof. reflexivity. Qed.
Example format_f_inf : format_f 2 (1 / 0) = "inf". Proof. reflexivity. Qed.
Example round_cent : np_round2 150.126 = 150.13. Proof. reflexivity. Qed.
Example round_half_cent : np_round2 0.005 = 0. Proof. reflexivity. Qed.
Example round_binary : np_round2 2.675 = 2.68. Proof. reflexivity. Qed.
Example upper_ex : upper "eurUsd=x" = "EURUSD=X". Proof. reflexivity. Qed.
Example endswith_ex : endswith "EURUSD=X" "=X" = true /\ endswith "X" "=X" = false.
Proof. split; reflexivity. Qed.
Example replace_ex : replace "=X" "" "EUR=XUSD=X" = "EURUSD". Proof. reflexivity. Qed.

(** A number above zero is not zero. *)
Lemma positive_not_zero (x : float) : (0 <? x) = true -> (x =? 0) = false.
Proof.
  rewrite ltb_spec, FloatAxioms.eqb_spec. unfold SFltb, SFeqb.
  change (Prim2SF 0) with (S754_zero false).
  destruct (Prim2SF x) as [s|s| |s m e]; simpl; try discriminate;
    destruct s; simpl; try discriminate; reflexivity.
Qed.

(** A number that is at most zero is not above zero. *)
Lemma at_most_zero_not_positive (x : float) : (x <=? 0) = true -> (0 <? x) = false.
Proof.
  rewrite leb_spec, ltb_spec. unfold SFleb, SFltb.
  change (Prim2SF 0) with (S754_zero false).
  destruct (Prim2SF x) as [s|s| |s m e]; simpl; try discriminate;
    try reflexivity; destruct s; simpl; try discriminate; reflexivity.
Qed.

(** Two numbers of which only one equals 0 are different. *)
Lemma differ_by_zero_test (x y : float) : (x =? 0) <> (y =? 0) -> x <> y.
Proof. intros H E. apply H. now rewrite E. Qed.

Lemma py_div_nonzero (x y : float) : (y =? 0) = false -> py_div x y = Returns (x / y).
Proof. intros H. unfold py_div. now rewrite H. Qed.

Lemma total_snoc (l : list float) (x : float) : total (l ++ [x]) = total l + x.
Proof. unfold total. now rewrite fold_left_app. Qed.

Lemma extend_nil (yf : Provider) (acc : Acc) : extend yf acc [] = acc.
Proof.
  destruct acc as [rows inv cur]. unfold extend. simpl. now rewrite app_nil_r.
Qed.

Lemma extend_skip (yf : Provider) (acc : Acc) (h : Holding) (hs : list Holding) :
  priced yf h = false -> extend yf acc (h :: hs) = extend yf acc hs.
Proof. intros H. unfold extend. simpl. now rewrite H. Qed.

Lemma extend_take (yf : Provider) (acc : Acc) (h : Holding) (hs : list Holding) :
  priced yf h = true ->
  extend yf acc (h :: hs)
  = extend yf
      {| all_holdings := all_holdings acc ++ [position yf h];
         acc_invested := acc_invested acc + invested_in h;
         acc_current := acc_current acc + value_of yf h |} hs.
Proof.
  intros H. unfold extend. simpl. rewrite H. simpl.
  now rewrite <- app_assoc.
Qed.

Lemma extend_app (yf : Provider) (acc : Acc) (hs1 hs2 : list Holding) :
  extend yf acc (hs1 ++ hs2) = extend yf (extend yf acc hs1) hs2.
Proof.
  unfold extend. simpl.
  now rewrite filter_app, !map_app, !fold_left_app, app_assoc.
Qed.

(** ** The three loops *)

(** One iteration, read on the holding [h]: it is skipped or it enters the
    accumulators. *)
Ltac loop_step yf h IH :=
  let cp := fresh "current_price" in
  let st := fresh "status" in
  let E := fresh "E" in
  let F := fresh "F" in
  let P := fresh "P" in
  simpl;
  destruct (get_current_price yf _) as [cp st] eqn:E;
  assert (F : fetched_price yf h = cp)
    by (unfold fetched_price; simpl; now rewrite E);
  destruct (0 <? cp) eqn:P;
  [ rewrite IH, extend_take by (unfold priced; now rewrite F);
    unfold position, value_of, invested_in; rewrite F; reflexivity
  | rewrite IH, extend_skip by (unfold priced; now rewrite F);
    reflexivity ].

Lemma process_stocks_loop (yf : Provider) (l : list Stock) (acc : Acc) :
  process_stocks yf l acc = extend yf acc (map Equity l).
Proof.
  revert acc. induction l as [|stock rest IH]; intros acc.
  - simpl. now rewrite extend_nil.
  - loop_step yf (Equity stock) IH.
Qed.

Lemma process_bullions_loop (yf : Provider) (l : list Bullion) (acc : Acc) :
  process_bullions yf l acc = extend yf acc (map Metal l).
Proof.
  revert acc. induction l as [|bullion rest IH]; intros acc.
  - simpl. now rewrite extend_nil.
  - loop_step yf (Metal bullion) IH.
Qed.

Lemma process_forex_loop (yf : Provider) (l : list Forex) (acc : Acc) :
  process_forex yf l acc = extend yf acc (map Currency l).
Proof.
  revert acc. induction l as [|fx rest IH]; intros acc.
  - simpl. now rewrite extend_nil.
  - loop_step yf (Currency fx) IH.
Qed.

(** The pass as a whole: it reports the priced holdings, in the order of the
    three loops. *)
Lemma get_portfolio_data_report (yf : Provider) (p : Portfolio) :
  get_portfolio_data yf p
  = Returns (report (map (position yf) (included yf p))
                    (total (map invested_in (included yf p)))
                    (total (map (value_of yf) (included yf p)))).
Proof.
  unfold get_portfolio_data, included, holdings.
  rewrite process_stocks_loop, process_bullions_loop, process_forex_loop.
  rewrite <- !extend_app. reflexivity.
Qed.

(** ** Valuation: what the pass reports *)

Lemma in_included (yf : Provider) (p : Portfolio) (h : Holding) :
  In h (included yf p) <-> In h (holdings p) /\ (0 <? fetched_price yf h) = true.
Proof. unfold included. now rewrite filter_In. Qed.

(** C1. For every portfolio the pass returns; its rows are the rows of
    exactly the holdings whose lookup gave a positive price (a holding whose
    lookup gave 0 has no row and adds to no total), [total_invested] is the
    sum of quantity x purchase price and [total_current] the sum of quantity x
    fetched price over those holdings, added up in the order of the rows.
    A portfolio of one equity (price 150, quantity 2, bought at 100) and one
    forex pair without a price gives one row and the totals 200, 300, 100. *)
Theorem valuation_counts_priced_holdings_only :
  (forall (yf : Provider) (p : Portfolio),
      exists v,
        get_portfolio_data yf p = Returns v
        /\ df v = map (position yf) (included yf p)
        /\ (forall h, In h (included yf p)
                      <-> In h (holdings p) /\ (0 <? fetched_price yf h) = true)
        /\ (forall h, fetched_price yf h = 0 -> ~ In h (included yf p))
        /\ total_invested v = total (map invested_in (included yf p))
        /\ total_current v = total (map (value_of yf) (included yf p)))
  /\ (forall (yf : Provider) (stock : Stock) (fx : Forex),
         fetched_price yf (Equity stock) = 150 ->
         stock_quantity stock = 2 ->
         stock_purchase_price stock = 100 ->
         fetched_price yf (Currency fx) = 0 ->
         exists v,
           get_portfolio_data yf {| stocks := [stock]; bullions := []; forex := [fx] |}
           = Returns v
           /\ List.length (df v) = 1%nat
           /\ total_invested v = 200
           /\ total_current v = 300
           /\ total_pnl v = 100).
Proof.
  split.
  - intros yf p. rewrite get_portfolio_data_report.
    eexists. split; [reflexivity|]. simpl.
    split; [reflexivity|]. split; [intros h; apply in_included|].
    split; [|split; reflexivity].
    intros h Hz Hin. apply in_included in Hin. destruct Hin as [_ Hlt].
    rewrite Hz in Hlt. discriminate.
  - intros yf stock fx Hprice Hqty Hbuy Hfx.
    rewrite get_portfolio_data_report.
    unfold included, holdings. simpl. unfold priced.
    rewrite Hprice, Hfx. simpl.
    eexists. split; [reflexivity|]. unfold value_of, invested_in. simpl.
    rewrite Hprice, Hqty, Hbuy.
    repeat split; reflexivity.
Qed.

Lemma sample_market_prices :
  fetched_price sample_market (Equity (sample_stock "AAPL" 2 100)) = 150
  /\ fetched_price sample_market (Currency sample_euro) = 0.
Proof. split; reflexivity. Qed.

Lemma valuation_counts_priced_holdings_only_witness :
  (exists v,
      get_portfolio_data sample_market equity_and_euro = Returns v
      /\ df v = map (position sample_market) (included sample_market equity_and_euro)
      /\ total_invested v
         = total (map invested_in (included sample_market equity_and_euro)))
  /\ (exists v,
         get_portfolio_data sample_market equity_and_euro = Returns v
         /\ List.length (df v) = 1%nat
         /\ total_invested v = 200
         /\ total_current v = 300
         /\ total_pnl v = 100).
Proof.
  split.
  - destruct (proj1 valuation_counts_priced_holdings_only sample_market equity_and_euro)
      as (v & Hv & Hdf & _ & _ & Hinv & _).
    exists v. auto.
  - apply (proj2 valuation_counts_priced_holdings_only sample_market
             (sample_stock "AAPL" 2 100) sample_euro).
    + apply sample_market_prices.
    + reflexivity.
    + reflexivity.
    + apply sample_market_prices.
Defined.

Lemma short_sale_valuation :
  get_portfolio_data sample_market short_sale
  = Returns {| df := map (position sample_market) (included sample_market short_sale);
               total_invested := -100;
               total_current := -150;
               total_pnl := 0 |}.
Proof. rewrite get_portfolio_data_report. reflexivity. Qed.

(** C2, as stated, fails: for one share sold short (quantity -1, bought at
    100, priced at 150) the pass returns with [total_invested] = -100, which
    is not 0, and [total_pnl] = 0, which is not [total_current] -
    [total_invested] = -50. *)
Lemma short_sale_breaks_pnl_identity :
  exists v,
    get_portfolio_data sample_market short_sale = Returns v
    /\ total_invested v <> 0
    /\ total_pnl v <> total_current v - total_invested v.
Proof.
  eexists. split; [apply short_sale_valuation|].
  split; simpl; apply differ_by_zero_test; vm_compute; discriminate.
Qed.

(** C2, amended. For every portfolio the pass returns, and [total_pnl] is
    [total_current] - [total_invested] if [total_invested] is greater than 0
    and exactly 0 if it is not (zero, negative, not a number), whatever
    [total_current] is. *)
Theorem total_pnl_is_guarded_difference (yf : Provider) (p : Portfolio) :
  exists v,
    get_portfolio_data yf p = Returns v
    /\ ((0 <? total_invested v) = true ->
        total_pnl v = total_current v - total_invested v)
    /\ ((0 <? total_invested v) = false -> total_pnl v = 0).
Proof.
  rewrite get_portfolio_data_report. eexists. split; [reflexivity|].
  unfold report. simpl. split; intros ->; reflexivity.
Qed.

Lemma total_pnl_is_guarded_difference_witness :
  exists v,
    get_portfolio_data sample_market free_share = Returns v
    /\ total_invested v = 0
    /\ total_current v = 150
    /\ total_pnl v = 0.
Proof.
  destruct (total_pnl_is_guarded_difference sample_market free_share)
    as (v & Hv & _ & Hzero).
  exists v. split; [exact Hv|].
  rewrite get_portfolio_data_report in Hv. injection Hv as <-.
  split; [reflexivity|]. split; [reflexivity|].
  apply Hzero. reflexivity.
Defined.

(** ** Valuation: order of the rows *)

Lemma filter_map_commute {A B : Type} (f : B -> bool) (g : A -> B) (l : list A) :
  filter f (map g l) = map g (filter (fun a => f (g a)) l).
Proof.
  induction l as [|a l IH]; simpl; [reflexivity|].
  destruct (f (g a)); simpl; now rewrite IH.
Qed.

Lemma included_by_category (yf : Provider) (p : Portfolio) :
  map (position yf) (included yf p)
  = (stock_positions yf (stocks p)
       ++ bullion_positions yf (bullions p)
       ++ forex_positions yf (forex p))%list.
Proof.
  unfold included, holdings, stock_positions, bullion_positions, forex_positions.
  rewrite !filter_app, !map_app, !filter_map_commute, !map_map. reflexivity.
Qed.

(** C8. For every portfolio the pass returns and its rows are the rows of
    the priced stocks in stored order, followed by those of the priced
    bullions in stored order, followed by those of the priced forex holdings
    in stored order. *)
Theorem positions_follow_category_then_stored_order (yf : Provider) (p : Portfolio) :
  exists v,
    get_portfolio_data yf p = Returns v
    /\ df v = (stock_positions yf (stocks p)
                 ++ bullion_positions yf (bullions p)
                 ++ forex_positions yf (forex p))%list.
Proof.
  rewrite get_portfolio_data_report.
  eexists. split; [reflexivity|]. simpl. apply included_by_category.
Qed.

Lemma positions_follow_category_then_stored_order_witness :
  exists v,
    get_portfolio_data sample_market mixed_portfolio = Returns v
    /\ map row_Symbol (df v) = ["AAPL"; "TSLA"; "Gold"; "GBPUSD"].
Proof.
  destruct (positions_follow_category_then_stored_order sample_market mixed_portfolio)
    as (v & Hv & Hdf).
  exists v. split; [exact Hv|]. rewrite Hdf. reflexivity.
Defined.

(** ** Valuation: division by zero *)

Lemma zero_divisor (y : float) :
  (y =? 0) = true -> exists s, Prim2SF y = S754_zero s.
Proof.
  rewrite FloatAxioms.eqb_spec. unfold SFeqb.
  change (Prim2SF 0) with (S754_zero false).
  destruct (Prim2SF y) as [s|s| |s m e]; simpl; try discriminate;
    [intros _; now exists s|destruct s; discriminate|destruct s; discriminate].
Qed.

(** A quotient by zero is an infinity or not-a-number. *)
Lemma quotient_by_zero (x y : float) : (y =? 0) = true -> not_finite (x / y) = true.
Proof.
  intros H. destruct (zero_divisor y H) as [s Hy].
  unfold not_finite. rewrite div_spec, Hy. unfold SF64div, SFdiv.
  destruct (Prim2SF x); reflexivity.
Qed.

Lemma hundredfold_not_finite (x : float) :
  not_finite x = true -> not_finite (x * 100) = true.
Proof.
  unfold not_finite. rewrite mul_spec. unfold SF64mul.
  destruct (Prim2SF x); try discriminate; intros _; reflexivity.
Qed.

Lemma position_columns (yf : Provider) (h : Holding) :
  row_Quantity (position yf h) = quantity h
  /\ row_Invested (position yf h) = invested_in h
  /\ row_Current_Value (position yf h) = value_of yf h
  /\ row_PnL (position yf h) = value_of yf h - invested_in h
  /\ row_PnL_pct (position yf h) = (value_of yf h - invested_in h) / invested_in h * 100.
Proof. destruct h; repeat split. Qed.

(** C10, as stated, fails: the stored lot has a positive quantity and a
    positive purchase price (1e-200 each) and a positive fetched price, yet
    quantity x purchase price is 0, so the pass divides by zero on it; the
    pass returns its row with Invested 0 and an infinite P&L %. *)
Lemma positive_numbers_with_zero_product :
  Forall well_formed (holdings tiny_lot)
  /\ existsb (divides_by_zero sample_market) (holdings tiny_lot) = true
  /\ exists v,
       get_portfolio_data sample_market tiny_lot = Returns v
       /\ map row_Invested (df v) = [0]
       /\ map row_PnL_pct (df v) = [infinity].
Proof.
  split; [repeat constructor|]. split; [reflexivity|].
  eexists. split; [apply get_portfolio_data_report|]. split; reflexivity.
Qed.

(** C10, amended. The quotient P&L / invested is taken without a guard and
    raises nothing: for every portfolio the pass returns, and every stored
    holding with a positive fetched price has its row, whose P&L % is
    (current value - invested) / invested x 100 with invested = quantity x
    purchase price.  If that product is 0 the division is by zero and the
    P&L % is an infinity or not-a-number.  If the product is not 0 for any
    stored holding, no division by zero takes place; positive quantity and
    purchase price alone do not make the product non-zero. *)
Theorem division_by_zero_only_off_invariant (yf : Provider) (p : Portfolio) :
  exists v,
    get_portfolio_data yf p = Returns v
    /\ (forall h,
           In h (holdings p) ->
           (0 <? fetched_price yf h) = true ->
           In (position yf h) (df v)
           /\ row_Invested (position yf h) = quantity h * purchase_price h
           /\ row_PnL_pct (position yf h)
              = (value_of yf h - invested_in h) / invested_in h * 100
           /\ ((quantity h * purchase_price h =? 0) = true ->
               not_finite (row_PnL_pct (position yf h)) = true))
    /\ ((forall h, In h (holdings p) -> (quantity h * purchase_price h =? 0) = false) ->
        existsb (divides_by_zero yf) (holdings p) = false
        /\ forall r, In r (df v) -> (row_Invested r =? 0) = false).
Proof.
  rewrite get_portfolio_data_report.
  eexists. split; [reflexivity|]. split.
  - intros h Hin Hprice. simpl.
    destruct (position_columns yf h) as (_ & Hi & _ & _ & Hpct).
    split; [apply in_map; apply in_included; now split|].
    split; [exact Hi|]. split; [exact Hpct|].
    intros Hz. rewrite Hpct. apply hundredfold_not_finite.
    now apply quotient_by_zero.
  - intros H. split.
    + destruct (existsb _ _) eqn:E; [|reflexivity].
      apply existsb_exists in E. destruct E as (h & Hin & Hz).
      unfold divides_by_zero in Hz. apply andb_true_iff in Hz. destruct Hz as [_ Hz].
      unfold invested_in in Hz. rewrite (H h Hin) in Hz. discriminate.
    + simpl. intros r Hr. apply in_map_iff in Hr. destruct Hr as (h & <- & Hin).
      apply in_included in Hin. destruct Hin as [Hin _].
      destruct (position_columns yf h) as (_ & -> & _). now apply H.
Qed.

Lemma division_by_zero_only_off_invariant_witness :
  not_finite (row_PnL_pct (position sample_market (Equity (sample_stock "AAPL" 1 0))))
  = true
  /\ existsb (divides_by_zero sample_market) (holdings equity_and_euro) = false.
Proof.
  split.
  - destruct (division_by_zero_only_off_invariant sample_market free_share)
      as (v & _ & H & _).
    apply (H (Equity (sample_stock "AAPL" 1 0))); [left|..]; reflexivity.
  - destruct (division_by_zero_only_off_invariant sample_market equity_and_euro)
      as (v & _ & _ & H).
    apply H. intros h [<-|[<-|[]]]; reflexivity.
Defined.

(** ** Price lookup *)

(** C6, as stated, fails: the provider has data for the dong pair, a
    positive close of 0.00004, and the lookup returns the price 0 with the
    status "Success". *)
Lemma tiny_close_is_returned_as_zero :
  sample_market "VNDUSD=X" = ProviderClose 0.00004
  /\ (0 <? 0.00004) = true
  /\ get_current_price sample_market "VNDUSD=X" = (0, "Success")
  /\ (0 <? fst (get_current_price sample_market "VNDUSD=X")) = false.
Proof. repeat split. Qed.

(** C6, amended. The lookup maps every reply of the provider to a result and
    raises nothing: a provider that raises or has no data gives the price 0
    with a status other than "Success"; a provider with data gives the last
    close rounded to two decimals the numpy way, [rint (close x 100) / 100]
    in binary64, with the status "Success", whether or not that price is
    positive. *)
Theorem get_current_price_maps_every_reply (yf : Provider) (symbol : string) :
  (yf symbol = ProviderRaises -> get_current_price yf symbol = (0, "Error"))
  /\ (yf symbol = ProviderEmpty -> get_current_price yf symbol = (0, "No data"))
  /\ (yf symbol = ProviderRaises \/ yf symbol = ProviderEmpty ->
      fst (get_current_price yf symbol) = 0
      /\ snd (get_current_price yf symbol) <> "Success")
  /\ (forall close,
         yf symbol = ProviderClose close ->
         get_current_price yf symbol = (rint (close * 100) / 100, "Success")).
Proof.
  unfold get_current_price.
  split; [now intros ->|]. split; [now intros ->|]. split.
  - intros [-> | ->]; split; (reflexivity || discriminate).
  - intros close ->. reflexivity.
Qed.

Lemma get_current_price_maps_every_reply_witness :
  get_current_price sample_market "MSFT" = (0, "Error")
  /\ get_current_price sample_market "EURUSD=X" = (0, "No data")
  /\ get_current_price sample_market "GBPUSD=X" = (1.25, "Success")
  /\ get_current_price sample_market "VNDUSD=X" = (0, "Success").
Proof.
  destruct (get_current_price_maps_every_reply sample_market "MSFT") as (Hr & _).
  destruct (get_current_price_maps_every_reply sample_market "EURUSD=X") as (_ & He & _).
  destruct (get_current_price_maps_every_reply sample_market "GBPUSD=X")
    as (_ & _ & _ & Hc).
  destruct (get_current_price_maps_every_reply sample_market "VNDUSD=X")
    as (_ & _ & _ & Hd).
  split; [apply Hr; reflexivity|]. split; [apply He; reflexivity|].
  split.
  - rewrite (Hc 1.25 eq_refl). reflexivity.
  - rewrite (Hd 0.00004 eq_refl). reflexivity.
Defined.

(** ** The holding store: removal *)

Lemma app_one_more {A : Type} (l : list A) (x : A) : (l ++ [x])%list <> l.
Proof.
  intros H. apply (f_equal (@List.length A)) in H.
  rewrite length_app in H. simpl in H. lia.
Qed.

Lemma list_pop_in_range {A : Type} (l : list A) (index : Z) :
  index_in_range index l = true ->
  exists x, list_pop l index = Some (x, remove_nth (Z.to_nat index) l).
Proof.
  unfold index_in_range, list_pop, remove_nth. intros H.
  apply andb_true_iff in H. destruct H as [Hlo Hhi].
  apply Z.leb_le in Hlo. apply Z.ltb_lt in Hhi.
  replace (index <? 0)%Z with false by (symmetry; apply Z.ltb_ge; lia).
  replace (0 <=? index)%Z with true by (symmetry; apply Z.leb_le; lia).
  replace (index <? Z.of_nat (List.length l))%Z with true
    by (symmetry; apply Z.ltb_lt; lia).
  simpl. destruct (nth_error l (Z.to_nat index)) as [x|] eqn:E.
  - now exists x.
  - apply nth_error_None in E. lia.
Qed.

Lemma index_in_range_iff {A : Type} (l : list A) (index : Z) :
  index_in_range index l = true <-> (0 <= index < Z.of_nat (List.length l))%Z.
Proof.
  unfold index_in_range. rewrite andb_true_iff, Z.leb_le, Z.ltb_lt. reflexivity.
Qed.

Section StoreFacts.

Context {Doc : Type}.
Variable json_dump : Portfolio -> Doc.

Lemma remove_holding_valid (fate : write_fate) (category : string) (index : Z)
    (t : Tracker) :
  valid_removal (portfolio t) category index ->
  remove_holding json_dump fate category index t
  = save_and_return_true json_dump fate
      (with_portfolio t (without_holding (portfolio t) category (Z.to_nat index))).
Proof.
  unfold valid_removal, known_category, category_length, remove_holding, without_holding.
  intros [[-> | [-> | ->]] Hrange]; simpl in *;
    apply index_in_range_iff in Hrange; rewrite Hrange;
    destruct (list_pop_in_range _ _ Hrange) as [x ->]; reflexivity.
Qed.

Lemma remove_holding_invalid (fate : write_fate) (category : string) (index : Z)
    (t : Tracker) :
  ~ valid_removal (portfolio t) category index ->
  remove_holding json_dump fate category index t = (Returns false, t).
Proof.
  unfold valid_removal, known_category, category_length, remove_holding.
  intros H.
  destruct (String.eqb_spec category "stocks") as [->|Hs].
  { destruct (index_in_range index (stocks (portfolio t))) eqn:E; [|reflexivity].
    apply index_in_range_iff in E. exfalso. apply H. auto. }
  destruct (String.eqb_spec category "bullions") as [->|Hb].
  { destruct (index_in_range index (bullions (portfolio t))) eqn:E; [|reflexivity].
    apply index_in_range_iff in E. exfalso. apply H. auto. }
  destruct (String.eqb_spec category "forex") as [->|Hf]; [|reflexivity].
  destruct (index_in_range index (forex (portfolio t))) eqn:E; [|reflexivity].
  apply index_in_range_iff in E. exfalso. apply H. auto.
Qed.

Lemma valid_removal_dec (p : Portfolio) (category : string) (index : Z) :
  valid_removal p category index \/ ~ valid_removal p category index.
Proof.
  unfold valid_removal, known_category.
  destruct (String.eqb_spec category "stocks");
    destruct (String.eqb_spec category "bullions");
    destruct (String.eqb_spec category "forex");
    destruct (Z_le_dec 0 index);
    destruct (Z_lt_dec index (category_length p category));
    tauto.
Qed.

(** C4. [remove_holding] removes the holding at the given position exactly
    when the category is one of the three known ones and 0 <= index < the
    category's length.  Then the portfolio in memory is the old one without
    that holding and, the write succeeding, the call returns [True] and the
    file holds the new portfolio.  Otherwise the call returns [False], raises
    nothing and leaves the portfolio and the file as they were. *)
Theorem remove_holding_contract (fate : write_fate) (category : string) (index : Z)
    (t : Tracker) :
  (valid_removal (portfolio t) category index ->
   portfolio (snd (remove_holding json_dump fate category index t))
   = without_holding (portfolio t) category (Z.to_nat index))
  /\ (~ valid_removal (portfolio t) category index ->
      remove_holding json_dump fate category index t = (Returns false, t))
  /\ (fate = WriteOk ->
      (fst (remove_holding json_dump fate category index t) = Returns true
       <-> valid_removal (portfolio t) category index)
      /\ (valid_removal (portfolio t) category index ->
          file (snd (remove_holding json_dump fate category index t))
          = Some (json_dump (without_holding (portfolio t) category (Z.to_nat index))))).
Proof.
  split; [|split].
  - intros H. rewrite (remove_holding_valid fate category index t H).
    destruct fate; reflexivity.
  - apply remove_holding_invalid.
  - intros ->. split; [split|].
    + intros H. destruct (valid_removal_dec (portfolio t) category index) as [Hv|Hv].
      * exact Hv.
      * rewrite (remove_holding_invalid WriteOk category index t Hv) in H. discriminate.
    + intros H. now rewrite (remove_holding_valid WriteOk category index t H).
    + intros H. now rewrite (remove_holding_valid WriteOk category index t H).
Qed.

End StoreFacts.

Example remove_nth_middle : remove_nth 1 [10%Z; 20%Z; 30%Z] = [10%Z; 30%Z].
Proof. reflexivity. Qed.

Lemma remove_holding_contract_witness :
  remove_holding sample_dump WriteOk "stocks" 1 (tracker_of mixed_portfolio)
  = (Returns true,
     tracker_of (set_stocks mixed_portfolio
                   [sample_stock "AAPL" 2 100; sample_stock "TSLA" 1 90]))
  /\ remove_holding sample_dump WriteOk "stocks" 3 (tracker_of mixed_portfolio)
     = (Returns false, tracker_of mixed_portfolio)
  /\ remove_holding sample_dump WriteOk "stocks" (-1) (tracker_of mixed_portfolio)
     = (Returns false, tracker_of mixed_portfolio)
  /\ remove_holding sample_dump WriteOk "crypto" 0 (tracker_of mixed_portfolio)
     = (Returns false, tracker_of mixed_portfolio).
Proof.
  split; [|split; [|split]].
  - assert (Hv : valid_removal (portfolio (tracker_of mixed_portfolio)) "stocks" 1).
    { split; [left; reflexivity|]. simpl. unfold category_length. simpl. lia. }
    destruct (remove_holding_contract sample_dump WriteOk "stocks" 1
                (tracker_of mixed_portfolio)) as (Hmem & _ & Hok).
    destruct (Hok eq_refl) as (Htrue & Hfile).
    specialize (Hmem Hv). specialize (Hfile Hv). apply Htrue in Hv.
    destruct (remove_holding sample_dump WriteOk "stocks" 1 (tracker_of mixed_portfolio))
      as [r [p f]].
    simpl in *. subst. reflexivity.
  - apply (remove_holding_contract sample_dump WriteOk "stocks" 3
             (tracker_of mixed_portfolio)).
    intros [_ H]. unfold category_length in H. simpl in H. lia.
  - apply (remove_holding_contract sample_dump WriteOk "stocks" (-1)
             (tracker_of mixed_portfolio)).
    intros [_ H]. lia.
  - apply (remove_holding_contract sample_dump WriteOk "crypto" 0
             (tracker_of mixed_portfolio)).
    intros [[H|[H|H]] _]; discriminate.
Defined.

(** ** The holding store: additions, failed writes, reloading *)

Section AdditionFacts.

Context {Doc : Type}.
Variable json_dump : Portfolio -> Doc.

(** C9. [add_forex] stores the inputs "eurusd" and "EURUSD=X" under the same
    pair: either call appends a holding whose pair is "EURUSD=X". *)
Theorem forex_pair_is_normalised (fate : write_fate) (now : string)
    (quantity purchase_price : float) (t : Tracker) :
  forex (portfolio (snd (add_forex json_dump fate now "eurusd" quantity purchase_price t)))
  = (forex (portfolio t)
       ++ [{| forex_pair := "EURUSD=X";
              forex_quantity := quantity;
              forex_purchase_price := purchase_price;
              forex_date_added := now |}])%list
  /\ forex (portfolio (snd (add_forex json_dump fate now "EURUSD=X" quantity purchase_price t)))
     = (forex (portfolio t)
          ++ [{| forex_pair := "EURUSD=X";
                 forex_quantity := quantity;
                 forex_purchase_price := purchase_price;
                 forex_date_added := now |}])%list.
Proof. split; destruct fate; reflexivity. Qed.

(** C3, amended. The add-operations do not look at the quantity, the
    purchase price or the symbol: for every input, positive or not, empty or
    not, [add_stock] and [add_forex] append the holding and write the file,
    and so does [add_bullion] for a metal of its symbol map.  The one input
    refused before anything is changed or written is a metal outside the
    symbol map, which raises [KeyError]. *)
Theorem add_operations_do_not_validate (now : string) (name : string)
    (quantity purchase_price : float) (t : Tracker) :
  (let p := set_stocks (portfolio t)
              (stocks (portfolio t)
                 ++ [{| stock_symbol := upper name;
                        stock_quantity := quantity;
                        stock_purchase_price := purchase_price;
                        stock_date_added := now |}]) in
   add_stock json_dump WriteOk now name quantity purchase_price t
   = (Returns tt, {| portfolio := p; file := Some (json_dump p) |}))
  /\ (let p := set_forex (portfolio t)
                 (forex (portfolio t)
                    ++ [{| forex_pair :=
                             if endswith name "=X" then name else upper name ++ "=X";
                           forex_quantity := quantity;
                           forex_purchase_price := purchase_price;
                           forex_date_added := now |}]) in
      add_forex json_dump WriteOk now name quantity purchase_price t
      = (Returns tt, {| portfolio := p; file := Some (json_dump p) |}))
  /\ (forall symbol,
         dict_get symbol_map name = Some symbol ->
         let p := set_bullions (portfolio t)
                    (bullions (portfolio t)
                       ++ [{| bullion_metal := name;
                              bullion_symbol := symbol;
                              bullion_quantity := quantity;
                              bullion_purchase_price := purchase_price;
                              bullion_date_added := now |}]) in
         add_bullion json_dump WriteOk now name quantity purchase_price t
         = (Returns tt, {| portfolio := p; file := Some (json_dump p) |}))
  /\ (dict_get symbol_map name = None ->
      forall fate,
        add_bullion json_dump fate now name quantity purchase_price t
        = (Raises (KeyError name), t)).
Proof.
  split; [reflexivity|]. split.
  - unfold add_forex. destruct (endswith name "=X"); reflexivity.
  - split.
    + intros symbol H. unfold add_bullion. now rewrite H.
    + intros H fate. unfold add_bullion. now rewrite H.
Qed.

(** C5, amended. When the write of a mutating operation fails, [OSError]
    reaches the caller and the portfolio in memory is the changed one, the
    same as after a successful call: the holding stays appended or removed,
    the categories stay cleared.  The portfolio in memory is left as it was
    only by the failures that come before the change: [add_bullion] with a
    metal outside the symbol map and [remove_holding] with an unknown
    category or an index out of range. *)
Theorem failed_write_keeps_the_change (fate : write_fate) (now : string)
    (name : string) (quantity purchase_price : float) (index : Z) (t : Tracker) :
  fate <> WriteOk ->
  (fst (add_stock json_dump fate now name quantity purchase_price t) = Raises OSError
   /\ portfolio (snd (add_stock json_dump fate now name quantity purchase_price t))
      = portfolio (snd (add_stock json_dump WriteOk now name quantity purchase_price t))
   /\ portfolio (snd (add_stock json_dump fate now name quantity purchase_price t))
      <> portfolio t)
  /\ (fst (add_forex json_dump fate now name quantity purchase_price t) = Raises OSError
      /\ portfolio (snd (add_forex json_dump fate now name quantity purchase_price t))
         = portfolio (snd (add_forex json_dump WriteOk now name quantity purchase_price t))
      /\ portfolio (snd (add_forex json_dump fate now name quantity purchase_price t))
         <> portfolio t)
  /\ (dict_get symbol_map name <> None ->
      fst (add_bullion json_dump fate now name quantity purchase_price t) = Raises OSError
      /\ portfolio (snd (add_bullion json_dump fate now name quantity purchase_price t))
         = portfolio (snd (add_bullion json_dump WriteOk now name quantity purchase_price t))
      /\ portfolio (snd (add_bullion json_dump fate now name quantity purchase_price t))
         <> portfolio t)
  /\ (dict_get symbol_map name = None ->
      add_bullion json_dump fate now name quantity purchase_price t
      = (Raises (KeyError name), t))
  /\ (valid_removal (portfolio t) name index ->
      fst (remove_holding json_dump fate name index t) = Raises OSError
      /\ portfolio (snd (remove_holding json_dump fate name index t))
         = without_holding (portfolio t) name (Z.to_nat index))
  /\ (~ valid_removal (portfolio t) name index ->
      remove_holding json_dump fate name index t = (Returns false, t))
  /\ (fst (clear_portfolio json_dump fate t) = Raises OSError
      /\ portfolio (snd (clear_portfolio json_dump fate t)) = empty_portfolio).
Proof.
  intros Hfate.
  assert (Hsave : forall t' : Tracker,
             fst (save_portfolio json_dump fate t') = Raises OSError
             /\ portfolio (snd (save_portfolio json_dump fate t')) = portfolio t').
  { intros t'. destruct fate; [contradiction| |]; split; reflexivity. }
  split; [|split; [|split; [|split; [|split; [|split]]]]].
  - unfold add_stock. split; [apply Hsave|]. split.
    + rewrite (proj2 (Hsave _)). reflexivity.
    + rewrite (proj2 (Hsave _)). simpl. intros H.
      apply (f_equal stocks) in H. simpl in H. now apply app_one_more in H.
  - unfold add_forex. split; [apply Hsave|]. split.
    + rewrite (proj2 (Hsave _)). reflexivity.
    + rewrite (proj2 (Hsave _)). simpl. intros H.
      apply (f_equal forex) in H. simpl in H. now apply app_one_more in H.
  - unfold add_bullion. destruct (dict_get symbol_map name) as [symbol|];
      [intros _|intros H; now destruct H].
    split; [apply Hsave|]. split.
    + rewrite (proj2 (Hsave _)). reflexivity.
    + rewrite (proj2 (Hsave _)). simpl. intros H.
      apply (f_equal bullions) in H. simpl in H. now apply app_one_more in H.
  - intros H. unfold add_bullion. now rewrite H.
  - intros H. rewrite (remove_holding_valid json_dump fate name index t H).
    unfold save_and_return_true.
    destruct (Hsave (with_portfolio t
                       (without_holding (portfolio t) name (Z.to_nat index))))
      as [Hraise Hmem].
    destruct (save_portfolio json_dump fate _) as [saved t'].
    simpl in *. subst saved. split; [reflexivity|exact Hmem].
  - apply remove_holding_invalid.
  - unfold clear_portfolio. split; [apply Hsave|]. now rewrite (proj2 (Hsave _)).
Qed.

End AdditionFacts.

(** C3, as stated, fails: called with an empty symbol, the quantity 0 and
    the purchase price -5, [add_stock] raises nothing, appends the holding and
    writes the file; [add_forex] does the same with an empty pair. *)
Lemma add_accepts_invalid_input :
  (let r := add_stock sample_dump WriteOk sample_time "" 0 ((-5)) fresh_tracker in
   fst r = Returns tt
   /\ stocks (portfolio (snd r)) = [sample_stock "" 0 ((-5))]
   /\ portfolio (snd r) <> portfolio fresh_tracker
   /\ file (snd r) <> file fresh_tracker)
  /\ (let r := add_forex sample_dump WriteOk sample_time "" ((-1)) 0 fresh_tracker in
      fst r = Returns tt
      /\ map forex_pair (forex (portfolio (snd r))) = ["=X"]
      /\ portfolio (snd r) <> portfolio fresh_tracker
      /\ file (snd r) <> file fresh_tracker).
Proof.
  split; simpl; (split; [reflexivity|]); (split; [reflexivity|]); split; discriminate.
Qed.

Lemma add_operations_do_not_validate_witness :
  fst (add_bullion sample_dump WriteOk sample_time "Gold" 0 ((-5)) fresh_tracker)
  = Returns tt
  /\ add_bullion sample_dump WriteOk sample_time "Copper" 1 100 fresh_tracker
     = (Raises (KeyError "Copper"), fresh_tracker).
Proof.
  destruct (add_operations_do_not_validate sample_dump sample_time "Gold"
              0 ((-5)) fresh_tracker) as (_ & _ & Hgold & _).
  destruct (add_operations_do_not_validate sample_dump sample_time "Copper"
              1 100 fresh_tracker) as (_ & _ & _ & Hcopper).
  split.
  - rewrite (Hgold "GC=F" eq_refl). reflexivity.
  - apply Hcopper. reflexivity.
Defined.

(** C5, as stated, fails: when the file cannot be opened, [add_stock] raises
    [OSError] and the portfolio in memory has the new holding all the same. *)
Lemma failed_write_leaves_stock_appended :
  let r := add_stock sample_dump OpenFails sample_time "aapl" 2 100 fresh_tracker in
  fst r = Raises OSError
  /\ stocks (portfolio (snd r)) = [sample_stock "AAPL" 2 100]
  /\ portfolio (snd r) <> portfolio fresh_tracker.
Proof.
  simpl. split; [reflexivity|]. split; [reflexivity|]. discriminate.
Qed.

Lemma failed_write_keeps_the_change_witness :
  fst (add_stock sample_dump OpenFails sample_time "aapl" 2 100 fresh_tracker)
  = Raises OSError
  /\ portfolio (snd (add_stock sample_dump OpenFails sample_time "aapl" 2 100 fresh_tracker))
     <> portfolio fresh_tracker
  /\ remove_holding sample_dump OpenFails "aapl" 0 fresh_tracker
     = (Returns false, fresh_tracker).
Proof.
  destruct (failed_write_keeps_the_change sample_dump OpenFails sample_time "aapl"
              2 100 0%Z fresh_tracker) as ((Hraise & _ & Hmem) & _ & _ & _ & _ & Hout & _).
  - discriminate.
  - split; [exact Hraise|]. split; [exact Hmem|].
    apply Hout. intros [[H|[H|H]] _]; discriminate.
Defined.

(** ** The holding store: reloading *)

Section Reloading.

Context {Doc : Type}.
Variable json_dump : Portfolio -> Doc.
Variable json_load : Doc -> option Portfolio.

(** The contract of the [json] module: a dumped portfolio loads back. *)
Hypothesis json_round_trip : forall p, json_load (json_dump p) = Some p.

(** C7. After an add-operation that went through (the write succeeds and,
    for bullion, the metal is in the symbol map), loading the file gives the
    portfolio that is in memory. *)
Theorem reload_after_add_equals_memory (now : string) (name : string)
    (quantity purchase_price : float) (t : Tracker) :
  (let r := add_stock json_dump WriteOk now name quantity purchase_price t in
   fst r = Returns tt
   /\ load_portfolio json_load (file (snd r)) = Returns (portfolio (snd r)))
  /\ (let r := add_forex json_dump WriteOk now name quantity purchase_price t in
      fst r = Returns tt
      /\ load_portfolio json_load (file (snd r)) = Returns (portfolio (snd r)))
  /\ (dict_get symbol_map name <> None ->
      let r := add_bullion json_dump WriteOk now name quantity purchase_price t in
      fst r = Returns tt
      /\ load_portfolio json_load (file (snd r)) = Returns (portfolio (snd r))).
Proof.
  split; [|split].
  - simpl. split; [reflexivity|]. now rewrite json_round_trip.
  - simpl. split; [reflexivity|]. now rewrite json_round_trip.
  - unfold add_bullion. destruct (dict_get symbol_map name); [intros _|intros H; now destruct H].
    simpl. split; [reflexivity|]. now rewrite json_round_trip.
Qed.

End Reloading.

Lemma reload_after_add_equals_memory_witness :
  load_portfolio sample_load
    (file (snd (add_stock sample_dump WriteOk sample_time "aapl" 2 100
                  (tracker_of equity_and_euro))))
  = Returns (set_stocks equity_and_euro
               [sample_stock "AAPL" 2 100; sample_stock "AAPL" 2 100]).
Proof.
  destruct (reload_after_add_equals_memory sample_dump sample_load
              (fun p => eq_refl) sample_time "aapl" 2 100 (tracker_of equity_and_euro))
    as ((_ & Hload) & _).
  exact Hload.
Defined.


(** ** Valuation: rows against totals *)

(** X1. For every portfolio, every row of the returned data frame is the row
    of a stored holding with a positive fetched price, and its columns obey:
    invested = quantity x purchase price, current value = quantity x fetched
    price, P&L = current value - invested, and P&L % = P&L / invested x 100,
    all in binary64, the last one infinite or not-a-number when invested is
    0. *)
Theorem rows_are_consistent (yf : Provider) (p : Portfolio) :
  exists v,
    get_portfolio_data yf p = Returns v
    /\ forall r,
         In r (df v) ->
         exists h,
           In h (holdings p)
           /\ (0 <? fetched_price yf h) = true
           /\ r = position yf h
           /\ row_Quantity r = quantity h
           /\ row_Invested r = quantity h * purchase_price h
           /\ row_Current_Value r = quantity h * fetched_price yf h
           /\ row_PnL r = row_Current_Value r - row_Invested r
           /\ row_PnL_pct r = row_PnL r / row_Invested r * 100
           /\ ((row_Invested r =? 0) = true -> not_finite (row_PnL_pct r) = true).
Proof.
  rewrite get_portfolio_data_report. eexists. split; [reflexivity|].
  simpl. intros r Hr. apply in_map_iff in Hr. destruct Hr as (h & <- & Hin).
  apply in_included in Hin. destruct Hin as [Hin Hprice].
  destruct (position_columns yf h) as (Hq & Hi & Hc & Hp & Hpct).
  exists h. rewrite Hq, Hi, Hc, Hp, Hpct. unfold invested_in, value_of.
  repeat split; try assumption.
  intros Hz. apply hundredfold_not_finite. now apply quotient_by_zero.
Qed.

Lemma map_position_column (yf : Provider) (column : Row -> float) (f : Holding -> float)
    (l : list Holding) :
  (forall h, column (position yf h) = f h) ->
  map column (map (position yf) l) = map f l.
Proof. intros H. rewrite map_map. apply map_ext. exact H. Qed.

(** X2. For every portfolio, the totals of the returned valuation are the
    sums of the columns of its data frame, added from 0 in the order of the
    rows: [total_invested] of the column Invested and [total_current] of the
    column Current Value. *)
Theorem totals_are_column_sums (yf : Provider) (p : Portfolio) :
  exists v,
    get_portfolio_data yf p = Returns v
    /\ total_invested v = fold_left PrimFloat.add (map row_Invested (df v)) 0
    /\ total_current v = fold_left PrimFloat.add (map row_Current_Value (df v)) 0.
Proof.
  rewrite get_portfolio_data_report. eexists. split; [reflexivity|].
  unfold report. simpl.
  rewrite (map_position_column yf row_Invested invested_in)
    by (intros h; apply position_columns).
  rewrite (map_position_column yf row_Current_Value (value_of yf))
    by (intros h; apply position_columns).
  split; reflexivity.
Qed.

(** ** Valuation: nothing priced *)

(** X4. When no stored holding gets a positive price - the portfolio is empty,
    or every lookup is unavailable - the pass returns an empty data frame and
    the totals 0, 0, 0.  It does so even for holdings whose invested amount
    is zero: the division is never reached. *)
Theorem valuation_without_prices (yf : Provider) (p : Portfolio) :
  (forall h, In h (holdings p) -> (0 <? fetched_price yf h) = false) ->
  get_portfolio_data yf p
  = Returns {| df := []; total_invested := 0; total_current := 0; total_pnl := 0 |}.
Proof.
  intros Hnone. rewrite get_portfolio_data_report. unfold included.
  replace (filter (priced yf) (holdings p)) with (@nil Holding); [reflexivity|].
  symmetry. induction (holdings p) as [|h l IH]; [reflexivity|].
  simpl. unfold priced at 1. rewrite (Hnone h) by now left. apply IH.
  intros h' Hin. apply Hnone. now right.
Qed.

Lemma valuation_without_prices_witness :
  get_portfolio_data (fun _ => ProviderRaises) free_share
  = Returns {| df := []; total_invested := 0; total_current := 0; total_pnl := 0 |}.
Proof.
  apply (valuation_without_prices (fun _ => ProviderRaises) free_share).
  intros h _. reflexivity.
Defined.

(** ** The dashboard header *)

(** X5. The percentage of the summary cards never divides by zero: for all
    numbers it returns, with 0 when [total_invested] is not greater than 0
    (zero, negative, not a number) and with [total_pnl] / [total_invested] x
    100 otherwise. *)
Theorem header_pnl_pct_is_guarded (pnl invested : float) :
  exists pct,
    header_pnl_pct pnl invested = Returns pct
    /\ ((0 <? invested) = false -> pct = 0)
    /\ ((0 <? invested) = true -> pct = pnl / invested * 100).
Proof.
  unfold header_pnl_pct. destruct (0 <? invested) eqn:E.
  - rewrite py_div_nonzero by now apply positive_not_zero.
    eexists. split; [reflexivity|]. split; [discriminate|reflexivity].
  - eexists. split; [reflexivity|]. split; [reflexivity|discriminate].
Qed.

Lemma header_pnl_pct_is_guarded_witness :
  header_pnl_pct 100 200 = Returns 50
  /\ header_pnl_pct 30 0 = Returns 0.
Proof.
  split.
  - destruct (header_pnl_pct_is_guarded 100 200) as (pct & -> & _ & H).
    f_equal. now rewrite H.
  - destruct (header_pnl_pct_is_guarded 30 0) as (pct & -> & H & _).
    f_equal. now apply H.
Defined.

(** ** Removal, position by position *)

Lemma remove_nth_nil {A : Type} (i : nat) : remove_nth i (@nil A) = [].
Proof. unfold remove_nth. now rewrite firstn_nil, skipn_nil. Qed.

Lemma remove_nth_cons {A : Type} (i : nat) (a : A) (l : list A) :
  remove_nth (S i) (a :: l) = a :: remove_nth i l.
Proof. reflexivity. Qed.

Lemma nth_error_remove_nth {A : Type} (l : list A) (i j : nat) :
  nth_error (remove_nth i l) j
  = if (i <=? j)%nat then nth_error l (S j) else nth_error l j.
Proof.
  revert i j. induction l as [|a l IH]; intros i j.
  - rewrite remove_nth_nil. destruct (i <=? j)%nat; now destruct j.
  - destruct i as [|i].
    + reflexivity.
    + rewrite remove_nth_cons. destruct j as [|j]; [reflexivity|].
      simpl nth_error. rewrite IH. reflexivity.
Qed.

Lemma length_remove_nth {A : Type} (l : list A) (i : nat) :
  (i < List.length l)%nat -> S (List.length (remove_nth i l)) = List.length l.
Proof.
  revert i. induction l as [|a l IH]; intros i H; simpl in H; [lia|].
  destruct i as [|i]; [reflexivity|].
  rewrite remove_nth_cons. simpl. rewrite IH; [reflexivity|lia].
Qed.

Lemma map_remove_nth {A B : Type} (f : A -> B) (l : list A) (i : nat) :
  map f (remove_nth i l) = remove_nth i (map f l).
Proof.
  unfold remove_nth. now rewrite map_app, firstn_map, skipn_map.
Qed.

Lemma filter_remove_nth {A : Type} (f : A -> bool) (l : list A) (i : nat) (x : A) :
  nth_error l i = Some x -> f x = false -> filter f (remove_nth i l) = filter f l.
Proof.
  revert i. induction l as [|a l IH]; intros i Hx Hf; [now destruct i|].
  destruct i as [|i].
  - simpl in Hx. injection Hx as ->. simpl. now rewrite Hf.
  - rewrite remove_nth_cons. simpl. rewrite (IH i Hx Hf). reflexivity.
Qed.

Lemma category_holdings_without (p : Portfolio) (category other : string) (i : nat) :
  category_holdings (without_holding p category i) other
  = if String.eqb other category
    then remove_nth i (category_holdings p other)
    else category_holdings p other.
Proof.
  unfold without_holding, category_holdings.
  destruct (String.eqb_spec other category) as [->|Hne].
  - destruct (String.eqb category "stocks") eqn:Es;
      [simpl; now rewrite map_remove_nth|].
    destruct (String.eqb category "bullions") eqn:Eb;
      [simpl; now rewrite map_remove_nth|].
    destruct (String.eqb category "forex") eqn:Ef;
      [simpl; now rewrite map_remove_nth|].
    now rewrite remove_nth_nil.
  - destruct (String.eqb_spec category "stocks") as [->|Hs];
      [destruct (String.eqb_spec other "stocks"); [congruence|reflexivity]|].
    destruct (String.eqb_spec category "bullions") as [->|Hb];
      [destruct (String.eqb_spec other "bullions"); [congruence|reflexivity]|].
    destruct (String.eqb_spec category "forex") as [->|Hf];
      [destruct (String.eqb_spec other "forex"); [congruence|reflexivity]|].
    reflexivity.
Qed.

Lemma category_length_holdings (p : Portfolio) (category : string) :
  category_length p category = Z.of_nat (List.length (category_holdings p category)).
Proof.
  unfold category_length, category_holdings.
  destruct (String.eqb category "stocks"); [now rewrite length_map|].
  destruct (String.eqb category "bullions"); [now rewrite length_map|].
  destruct (String.eqb category "forex"); [now rewrite length_map|reflexivity].
Qed.

Lemma holdings_by_category (p : Portfolio) :
  holdings p
  = (category_holdings p "stocks"
       ++ category_holdings p "bullions"
       ++ category_holdings p "forex")%list.
Proof. reflexivity. Qed.

Section RemovalFacts.

Context {Doc : Type}.
Variable json_dump : Portfolio -> Doc.

Lemma save_and_return_true_memory (fate : write_fate) (t : Tracker) :
  portfolio (snd (save_and_return_true json_dump fate t)) = portfolio t.
Proof. destruct fate; reflexivity. Qed.

Lemma remove_holding_memory (fate : write_fate) (category : string) (index : Z)
    (t : Tracker) :
  valid_removal (portfolio t) category index ->
  portfolio (snd (remove_holding json_dump fate category index t))
  = without_holding (portfolio t) category (Z.to_nat index).
Proof.
  intros H. rewrite (remove_holding_valid json_dump fate category index t H).
  apply save_and_return_true_memory.
Qed.

(** X6. A removal that takes place shortens its category by exactly one holding:
    the holdings before the index keep their positions, the holdings after it
    move down by one, and the other categories are as they were. *)
Theorem removal_shifts_later_holdings (fate : write_fate) (category : string)
    (index : Z) (t : Tracker) :
  valid_removal (portfolio t) category index ->
  let p' := portfolio (snd (remove_holding json_dump fate category index t)) in
  (category_length p' category = category_length (portfolio t) category - 1)%Z
  /\ forall other j,
       nth_error (category_holdings p' other) j
       = if (String.eqb other category && (Z.to_nat index <=? j)%nat)%bool
         then nth_error (category_holdings (portfolio t) other) (S j)
         else nth_error (category_holdings (portfolio t) other) j.
Proof.
  intros H. simpl. rewrite (remove_holding_memory fate category index t H).
  split.
  - rewrite !category_length_holdings, category_holdings_without, String.eqb_refl.
    destruct H as [_ Hrange]. rewrite category_length_holdings in Hrange.
    pose proof (length_remove_nth (category_holdings (portfolio t) category)
                  (Z.to_nat index)) as Hlen.
    lia.
  - intros other j. rewrite category_holdings_without.
    destruct (String.eqb other category); simpl; [apply nth_error_remove_nth|reflexivity].
Qed.

(** X7. Removing a holding whose lookup gives no positive price leaves the
    valuation as it was. *)
Theorem removing_unpriced_holding_keeps_valuation (yf : Provider) (fate : write_fate)
    (category : string) (index : Z) (t : Tracker) (h : Holding) :
  valid_removal (portfolio t) category index ->
  nth_error (category_holdings (portfolio t) category) (Z.to_nat index) = Some h ->
  (0 <? fetched_price yf h) = false ->
  get_portfolio_data yf (portfolio (snd (remove_holding json_dump fate category index t)))
  = get_portfolio_data yf (portfolio t).
Proof.
  intros Hvalid Hnth Hprice.
  assert (Hp : priced yf h = false) by exact Hprice.
  rewrite (remove_holding_memory fate category index t Hvalid).
  rewrite !get_portfolio_data_report. unfold included.
  rewrite !holdings_by_category, !category_holdings_without, !filter_app.
  assert (Hsame : forall other,
             filter (priced yf)
               (if String.eqb other category
                then remove_nth (Z.to_nat index) (category_holdings (portfolio t) other)
                else category_holdings (portfolio t) other)
             = filter (priced yf) (category_holdings (portfolio t) other)).
  { intros other. destruct (String.eqb_spec other category) as [->|_]; [|reflexivity].
    now apply (filter_remove_nth _ _ _ h). }
  now rewrite !Hsame.
Qed.

End RemovalFacts.

Lemma removal_of_second_stock_is_valid :
  valid_removal (portfolio (tracker_of mixed_portfolio)) "stocks" 1.
Proof.
  split; [left; reflexivity|]. unfold category_length. simpl. lia.
Qed.

Lemma removal_shifts_later_holdings_witness :
  nth_error
    (category_holdings
       (portfolio (snd (remove_holding sample_dump OpenFails "stocks" 1
                          (tracker_of mixed_portfolio)))) "stocks") 1
  = Some (Equity (sample_stock "TSLA" 1 90)).
Proof.
  destruct (removal_shifts_later_holdings sample_dump OpenFails "stocks" 1
              (tracker_of mixed_portfolio) removal_of_second_stock_is_valid)
    as [_ Hshift].
  rewrite Hshift. reflexivity.
Defined.

Lemma removing_unpriced_holding_keeps_valuation_witness :
  get_portfolio_data sample_market
    (portfolio (snd (remove_holding sample_dump WriteOk "stocks" 1
                       (tracker_of mixed_portfolio))))
  = get_portfolio_data sample_market mixed_portfolio.
Proof.
  apply (removing_unpriced_holding_keeps_valuation sample_dump sample_market WriteOk
           "stocks" 1 (tracker_of mixed_portfolio) (Equity (sample_stock "NOPE" 1 10))).
  - exact removal_of_second_stock_is_valid.
  - reflexivity.
  - reflexivity.
Defined.

(** ** Additions, position by position *)

Lemma remove_nth_last {A : Type} (l : list A) (x : A) :
  remove_nth (List.length l) (l ++ [x]) = l.
Proof.
  unfold remove_nth.
  rewrite firstn_app, firstn_all, Nat.sub_diag, skipn_all2
    by (rewrite length_app; simpl; lia).
  simpl. now rewrite !app_nil_r.
Qed.

Lemma nth_error_snoc {A : Type} (l : list A) (x : A) (j : nat) :
  nth_error (l ++ [x]) j
  = if (j =? List.length l)%nat then Some x else nth_error l j.
Proof.
  destruct (Nat.eqb_spec j (List.length l)) as [->|Hne].
  - rewrite nth_error_app2, Nat.sub_diag by lia. reflexivity.
  - destruct (Nat.lt_ge_cases j (List.length l)) as [Hlt|Hge].
    + now rewrite nth_error_app1.
    + rewrite (proj2 (nth_error_None l j)) by lia.
      apply nth_error_None. rewrite length_app. simpl. lia.
Qed.

Section AppendFacts.

Context {Doc : Type}.
Variable json_dump : Portfolio -> Doc.

Lemma save_portfolio_memory (fate : write_fate) (t : Tracker) :
  portfolio (snd (save_portfolio json_dump fate t)) = portfolio t.
Proof. destruct fate; reflexivity. Qed.

(** X8. [add_stock] puts the new holding behind the stored stocks, whether or not
    the write succeeds: every stored holding of every category keeps its
    position, and the position just past the old stocks holds the new
    holding with the upper-cased symbol and the given numbers and time. *)
Theorem add_stock_appends (fate : write_fate) (now symbol : string)
    (quantity purchase_price : float) (t : Tracker) (category : string) (j : nat) :
  nth_error
    (category_holdings
       (portfolio (snd (add_stock json_dump fate now symbol quantity purchase_price t)))
       category) j
  = if (String.eqb category "stocks" && (j =? List.length (stocks (portfolio t)))%nat)%bool
    then Some (Equity {| stock_symbol := upper symbol;
                         stock_quantity := quantity;
                         stock_purchase_price := purchase_price;
                         stock_date_added := now |})
    else nth_error (category_holdings (portfolio t) category) j.
Proof.
  unfold add_stock. rewrite save_portfolio_memory. unfold category_holdings. simpl.
  destruct (String.eqb category "stocks"); [|reflexivity]. simpl.
  rewrite map_app. cbn [map]. rewrite nth_error_snoc, length_map. reflexivity.
Qed.

(** X9. Removing the last holding of a category right after it was added gives
    back the portfolio from before the addition, for each of the three
    add-operations; with a successful write the removal returns [True] and
    the file holds that portfolio. *)
Theorem add_then_remove_last_restores (fate : write_fate) (now name : string)
    (quantity purchase_price : float) (t : Tracker) :
  remove_holding json_dump WriteOk "stocks"
    (Z.of_nat (List.length (stocks (portfolio t))))
    (snd (add_stock json_dump fate now name quantity purchase_price t))
  = (Returns true,
     {| portfolio := portfolio t; file := Some (json_dump (portfolio t)) |})
  /\ remove_holding json_dump WriteOk "forex"
       (Z.of_nat (List.length (forex (portfolio t))))
       (snd (add_forex json_dump fate now name quantity purchase_price t))
     = (Returns true,
        {| portfolio := portfolio t; file := Some (json_dump (portfolio t)) |})
  /\ (dict_get symbol_map name <> None ->
      remove_holding json_dump WriteOk "bullions"
        (Z.of_nat (List.length (bullions (portfolio t))))
        (snd (add_bullion json_dump fate now name quantity purchase_price t))
      = (Returns true,
         {| portfolio := portfolio t; file := Some (json_dump (portfolio t)) |})).
Proof.
  assert (Hrange : forall (A : Type) (l : list A) (x : A),
             index_in_range (Z.of_nat (List.length l)) (l ++ [x]) = true).
  { intros A l x. apply index_in_range_iff. rewrite length_app. simpl. lia. }
  assert (Hpop : forall (A : Type) (l : list A) (x : A),
             exists y, list_pop (l ++ [x]) (Z.of_nat (List.length l)) = Some (y, l)).
  { intros A l x. destruct (list_pop_in_range _ _ (Hrange A l x)) as [y Hy].
    exists y. now rewrite Hy, Nat2Z.id, remove_nth_last. }
  destruct t as [[ss bs fs] f].
  split; [|split].
  - unfold add_stock, remove_holding. rewrite save_portfolio_memory. simpl.
    rewrite Hrange. destruct (Hpop _ ss (Build_Stock (upper name) quantity purchase_price now))
      as [y ->]. destruct fate; reflexivity.
  - unfold add_forex, remove_holding. rewrite save_portfolio_memory. simpl.
    rewrite Hrange.
    destruct (Hpop _ fs (Build_Forex
                           (if negb (endswith name "=X") then upper name ++ "=X" else name)
                           quantity purchase_price now)) as [y ->].
    destruct fate; reflexivity.
  - unfold add_bullion. destruct (dict_get symbol_map name) as [symbol|];
      [intros _|intros H; now destruct H].
    unfold remove_holding. rewrite save_portfolio_memory. simpl.
    rewrite Hrange.
    destruct (Hpop _ bs (Build_Bullion name symbol quantity purchase_price now)) as [y ->].
    destruct fate; reflexivity.
Qed.

End AppendFacts.

Lemma add_then_remove_last_restores_witness :
  remove_holding sample_dump WriteOk "bullions" 1
    (snd (add_bullion sample_dump OpenFails sample_time "Silver" 10 25
            (tracker_of mixed_portfolio)))
  = (Returns true, tracker_of mixed_portfolio).
Proof.
  destruct (add_then_remove_last_restores sample_dump OpenFails sample_time "Silver"
              10 25 (tracker_of mixed_portfolio)) as (_ & _ & H).
  apply H. discriminate.
Defined.

(** ** Texts as the add-operations store them *)

Lemma upper_ascii_idempotent (c : ascii) : upper_ascii (upper_ascii c) = upper_ascii c.
Proof.
  destruct c as [[] [] [] [] [] [] [] []]; reflexivity.
Qed.

Lemma upper_idempotent (s : string) : upper (upper s) = upper s.
Proof.
  induction s as [|c s IH]; simpl; [reflexivity|].
  now rewrite upper_ascii_idempotent, IH.
Qed.

Lemma length_append (s1 s2 : string) :
  String.length (s1 ++ s2) = (String.length s1 + String.length s2)%nat.
Proof. induction s1 as [|c s1 IH]; simpl; [reflexivity|now rewrite IH]. Qed.

Lemma substring_whole (s : string) : substring 0 (String.length s) s = s.
Proof. induction s as [|c s IH]; simpl; [reflexivity|now rewrite IH]. Qed.

Lemma substring_suffix (s suffix : string) :
  substring (String.length s) (String.length suffix) (s ++ suffix) = suffix.
Proof.
  induction s as [|c s IH]; simpl; [apply substring_whole|exact IH].
Qed.

Lemma endswith_append (s suffix : string) : endswith (s ++ suffix) suffix = true.
Proof.
  unfold endswith. rewrite length_append.
  replace (String.length suffix <=? String.length s + String.length suffix)%nat
    with true by (symmetry; apply Nat.leb_le; lia).
  replace (String.length s + String.length suffix - String.length suffix)%nat
    with (String.length s) by lia.
  rewrite substring_suffix. apply String.eqb_refl.
Qed.

Lemma dict_get_symbol_map (metal symbol : string) :
  dict_get symbol_map metal = Some symbol
  <-> (metal = "Gold" /\ symbol = "GC=F")
      \/ (metal = "Silver" /\ symbol = "SI=F")
      \/ (metal = "Platinum" /\ symbol = "PL=F")
      \/ (metal = "Palladium" /\ symbol = "PA=F").
Proof.
  unfold symbol_map. cbn [dict_get]. split.
  - destruct (String.eqb_spec "Gold" metal) as [<-|_];
      [intros [= <-]; auto|].
    destruct (String.eqb_spec "Silver" metal) as [<-|_];
      [intros [= <-]; auto|].
    destruct (String.eqb_spec "Platinum" metal) as [<-|_];
      [intros [= <-]; auto 6|].
    destruct (String.eqb_spec "Palladium" metal) as [<-|_];
      [intros [= <-]; auto 6|discriminate].
  - intros [[-> ->]|[[-> ->]|[[-> ->]|[-> ->]]]]; reflexivity.
Qed.

Section TextFacts.

Context {Doc : Type}.
Variable json_dump : Portfolio -> Doc.

(** X10. [add_bullion] goes through for exactly the four metal names Gold,
    Silver, Platinum and Palladium, spelled with that casing, and stores the
    futures symbol of the metal; any other name, "gold" included, raises
    [KeyError] and leaves the tracker as it was. *)
Theorem add_bullion_knows_four_metals (now metal : string)
    (quantity purchase_price : float) (t : Tracker) :
  (fst (add_bullion json_dump WriteOk now metal quantity purchase_price t) = Returns tt
   <-> In metal ["Gold"; "Silver"; "Platinum"; "Palladium"])
  /\ (In metal ["Gold"; "Silver"; "Platinum"; "Palladium"] ->
      exists symbol,
        In (metal, symbol)
           [("Gold", "GC=F"); ("Silver", "SI=F"); ("Platinum", "PL=F"); ("Palladium", "PA=F")]
        /\ bullions (portfolio (snd (add_bullion json_dump WriteOk now metal
                                       quantity purchase_price t)))
           = (bullions (portfolio t)
                ++ [{| bullion_metal := metal;
                       bullion_symbol := symbol;
                       bullion_quantity := quantity;
                       bullion_purchase_price := purchase_price;
                       bullion_date_added := now |}])%list)
  /\ (~ In metal ["Gold"; "Silver"; "Platinum"; "Palladium"] ->
      forall fate,
        add_bullion json_dump fate now metal quantity purchase_price t
        = (Raises (KeyError metal), t)).
Proof.
  assert (Hknown : In metal ["Gold"; "Silver"; "Platinum"; "Palladium"]
                   <-> exists symbol, dict_get symbol_map metal = Some symbol).
  { split.
    - simpl. intros [<-|[<-|[<-|[<-|[]]]]]; eexists; reflexivity.
    - intros [symbol H]. apply dict_get_symbol_map in H. simpl.
      destruct H as [[-> _]|[[-> _]|[[-> _]|[-> _]]]]; auto. }
  split; [|split].
  - rewrite Hknown. unfold add_bullion.
    destruct (dict_get symbol_map metal) as [symbol|]; simpl.
    + split; [intros _; now exists symbol|reflexivity].
    + split; [discriminate|]. intros [symbol H]. discriminate.
  - intros Hin. apply Hknown in Hin. destruct Hin as [symbol H].
    exists symbol. split.
    + apply dict_get_symbol_map in H. simpl.
      destruct H as [[-> ->]|[[-> ->]|[[-> ->]|[-> ->]]]]; auto.
    + unfold add_bullion. now rewrite H.
  - intros Hout fate. unfold add_bullion.
    destruct (dict_get symbol_map metal) as [symbol|] eqn:E; [|reflexivity].
    exfalso. apply Hout. apply Hknown. now exists symbol.
Qed.

(** X11. [add_stock] does not tell a symbol from its upper-cased form: both calls
    leave the same tracker and the same file, and the stored symbol is its own
    upper-cased form. *)
Theorem add_stock_ignores_case (fate : write_fate) (now symbol : string)
    (quantity purchase_price : float) (t : Tracker) :
  add_stock json_dump fate now (upper symbol) quantity purchase_price t
  = add_stock json_dump fate now symbol quantity purchase_price t
  /\ exists stock,
       stocks (portfolio (snd (add_stock json_dump fate now symbol
                                 quantity purchase_price t)))
       = (stocks (portfolio t) ++ [stock])%list
       /\ upper (stock_symbol stock) = stock_symbol stock.
Proof.
  split.
  - unfold add_stock. now rewrite upper_idempotent.
  - eexists. split.
    + unfold add_stock. destruct fate; reflexivity.
    + simpl. apply upper_idempotent.
Qed.

(** X12. Every pair stored by [add_forex] ends with "=X", and handing a stored
    pair to [add_forex] again stores it unchanged. *)
Theorem add_forex_stores_suffixed_pair (fate : write_fate) (now name : string)
    (quantity purchase_price : float) (t : Tracker) :
  exists fx,
    forex (portfolio (snd (add_forex json_dump fate now name quantity purchase_price t)))
    = (forex (portfolio t) ++ [fx])%list
    /\ endswith (forex_pair fx) "=X" = true
    /\ forex (portfolio (snd (add_forex json_dump fate now (forex_pair fx)
                                quantity purchase_price t)))
       = (forex (portfolio t) ++ [fx])%list
    /\ forex_quantity fx = quantity
    /\ forex_purchase_price fx = purchase_price
    /\ forex_date_added fx = now.
Proof.
  assert (Hend : endswith (if negb (endswith name "=X") then upper name ++ "=X" else name)
                          "=X" = true).
  { destruct (endswith name "=X") eqn:E; simpl; [exact E|apply endswith_append]. }
  eexists. split; [unfold add_forex; destruct fate; reflexivity|].
  split; [exact Hend|]. split; [|repeat split].
  unfold add_forex. cbn [forex_pair]. rewrite Hend. destruct fate; reflexivity.
Qed.

End TextFacts.

Lemma add_bullion_knows_four_metals_witness :
  fst (add_bullion sample_dump WriteOk sample_time "Gold" 1 2000 fresh_tracker)
  = Returns tt
  /\ add_bullion sample_dump WriteOk sample_time "gold" 1 2000 fresh_tracker
     = (Raises (KeyError "gold"), fresh_tracker).
Proof.
  destruct (add_bullion_knows_four_metals sample_dump sample_time "Gold" 1 2000
              fresh_tracker) as (Hgold & _ & _).
  destruct (add_bullion_knows_four_metals sample_dump sample_time "gold" 1 2000
              fresh_tracker) as (_ & _ & Hlower).
  split.
  - apply Hgold. left. reflexivity.
  - apply Hlower. intros [H|[H|[H|[H|[]]]]]; discriminate.
Defined.

(** ** Sessions *)

Lemma Forall_remove_nth {A : Type} (P : A -> Prop) (l : list A) (i : nat) :
  Forall P l -> Forall P (remove_nth i l).
Proof.
  intros H. revert i. induction H as [|a l Ha Hl IH]; intros i.
  - rewrite remove_nth_nil. constructor.
  - destruct i as [|i]; [exact Hl|].
    rewrite remove_nth_cons. constructor; [exact Ha|apply IH].
Qed.

Lemma Forall_without_holding (P : Holding -> Prop) (p : Portfolio)
    (category : string) (i : nat) :
  Forall P (holdings p) -> Forall P (holdings (without_holding p category i)).
Proof.
  rewrite !holdings_by_category, !category_holdings_without, !Forall_app.
  intros (Hs & Hb & Hf).
  repeat split;
    match goal with
    | |- Forall _ (if ?b then _ else _) => destruct b
    end; try assumption; now apply Forall_remove_nth.
Qed.

Section SessionFacts.

Context {Doc : Type}.
Variable json_dump : Portfolio -> Doc.

Lemma perform_remove_memory (fate : write_fate) (category : string) (index : Z)
    (t : Tracker) :
  portfolio (snd (remove_holding json_dump fate category index t))
  = portfolio t
  \/ portfolio (snd (remove_holding json_dump fate category index t))
     = without_holding (portfolio t) category (Z.to_nat index).
Proof.
  destruct (valid_removal_dec json_dump (portfolio t) category index) as [H|H].
  - right. now apply remove_holding_memory.
  - left. now rewrite (remove_holding_invalid json_dump fate category index t H).
Qed.

(** What a call may add to the holdings: nothing, or one holding built from
    its arguments. *)
Lemma perform_holdings (P : Holding -> Prop) (fate : write_fate) (c : call) (t : Tracker) :
  Forall P (holdings (portfolio t)) ->
  (forall now symbol quantity purchase_price,
      c = AddStock now symbol quantity purchase_price ->
      P (Equity {| stock_symbol := upper symbol;
                   stock_quantity := quantity;
                   stock_purchase_price := purchase_price;
                   stock_date_added := now |})) ->
  (forall now metal symbol quantity purchase_price,
      c = AddBullion now metal quantity purchase_price ->
      dict_get symbol_map metal = Some symbol ->
      P (Metal {| bullion_metal := metal;
                  bullion_symbol := symbol;
                  bullion_quantity := quantity;
                  bullion_purchase_price := purchase_price;
                  bullion_date_added := now |})) ->
  (forall now name quantity purchase_price,
      c = AddForex now name quantity purchase_price ->
      P (Currency {| forex_pair :=
                       if negb (endswith name "=X") then upper name ++ "=X" else name;
                     forex_quantity := quantity;
                     forex_purchase_price := purchase_price;
                     forex_date_added := now |})) ->
  Forall P (holdings (portfolio (perform json_dump fate c t))).
Proof.
  intros Hold Hstock Hbullion Hforex.
  destruct c as [now symbol q pp|now metal q pp|now name q pp|category index|]; simpl.
  - unfold add_stock. rewrite save_portfolio_memory.
    unfold holdings in *. simpl. rewrite map_app, !Forall_app in *.
    destruct Hold as (Hs & Hb & Hf). repeat split; try assumption.
    constructor; [|constructor]. now apply (Hstock now symbol q pp).
  - unfold add_bullion. destruct (dict_get symbol_map metal) as [symbol|] eqn:E;
      [|exact Hold].
    rewrite save_portfolio_memory.
    unfold holdings in *. simpl. rewrite map_app, !Forall_app in *.
    destruct Hold as (Hs & Hb & Hf). repeat split; try assumption.
    constructor; [|constructor]. now apply (Hbullion now metal symbol q pp).
  - unfold add_forex. rewrite save_portfolio_memory.
    unfold holdings in *. simpl. rewrite map_app, !Forall_app in *.
    destruct Hold as (Hs & Hb & Hf). repeat split; try assumption.
    constructor; [|constructor]. now apply (Hforex now name q pp).
  - destruct (perform_remove_memory fate category index t) as [-> | ->];
      [exact Hold|now apply Forall_without_holding].
  - unfold clear_portfolio. rewrite save_portfolio_memory. constructor.
Qed.

(** X13. A tracker whose holdings all have positive numbers keeps that through
    any sequence of calls that hand positive numbers to the add-operations,
    whatever happens to the writes; after such a sequence the valuation
    returns for every market. *)
Theorem session_keeps_positive_numbers (steps : list (write_fate * call)) (t : Tracker) :
  Forall well_formed (holdings (portfolio t)) ->
  Forall (fun step => positive_numbers (snd step)) steps ->
  Forall well_formed (holdings (portfolio (session json_dump steps t)))
  /\ forall yf, exists v,
       get_portfolio_data yf (portfolio (session json_dump steps t)) = Returns v.
Proof.
  intros Ht Hsteps.
  assert (Hwf : Forall well_formed (holdings (portfolio (session json_dump steps t)))).
  { revert t Ht. induction Hsteps as [|[fate c] steps Hc _ IH]; intros t Ht; [exact Ht|].
    simpl. apply IH. simpl in Hc.
    apply perform_holdings; [exact Ht| | |]; intros; subst c; exact Hc. }
  split; [exact Hwf|]. intros yf.
  rewrite get_portfolio_data_report. eexists. reflexivity.
Qed.

(** X14. A tracker whose holdings are all in stored form keeps that through any
    sequence of calls: every stock symbol is its own upper-cased form, every
    bullion symbol is the one the symbol map gives for its metal, every forex
    pair ends with "=X". *)
Theorem session_keeps_stored_form (steps : list (write_fate * call)) (t : Tracker) :
  Forall normalised (holdings (portfolio t)) ->
  Forall normalised (holdings (portfolio (session json_dump steps t))).
Proof.
  revert t. induction steps as [|[fate c] steps IH]; intros t Ht; [exact Ht|].
  simpl. apply IH. apply perform_holdings; [exact Ht| | |]; intros; simpl.
  - apply upper_idempotent.
  - assumption.
  - destruct (endswith name "=X") eqn:E; simpl; [exact E|apply endswith_append].
Qed.

End SessionFacts.

Lemma session_keeps_positive_numbers_witness :
  exists v,
    get_portfolio_data sample_market
      (portfolio
         (session sample_dump
            [(WriteOk, AddStock sample_time "aapl" 2 100);
             (OpenFails, AddForex sample_time "gbpusd" 500 1);
             (WriteOk, RemoveHolding "stocks" 5);
             (WriteOk, AddBullion sample_time "Gold" 3 1800)]
            fresh_tracker))
    = Returns v.
Proof.
  apply (session_keeps_positive_numbers sample_dump).
  - constructor.
  - repeat constructor.
Defined.

Lemma session_keeps_stored_form_witness :
  Forall normalised
    (holdings
       (portfolio
          (session sample_dump
             [(WriteOk, AddStock sample_time "aapl" 2 100);
              (OpenFails, AddForex sample_time "gbpusd" 500 1);
              (WriteOk, AddBullion sample_time "Gold" 3 1800)]
             fresh_tracker))).
Proof.
  apply (session_keeps_stored_form sample_dump). constructor.
Defined.

(** ** Sessions and the file *)

Section FileFacts.

Context {Doc : Type}.
Variable json_dump : Portfolio -> Doc.
Variable json_load : Doc -> option Portfolio.

(** The contract of the [json] module: a dumped portfolio loads back. *)
Hypothesis json_round_trip : forall p, json_load (json_dump p) = Some p.

Lemma save_portfolio_reloads (t : Tracker) :
  load_portfolio json_load (file (snd (save_portfolio json_dump WriteOk t)))
  = Returns (portfolio (snd (save_portfolio json_dump WriteOk t))).
Proof. simpl. now rewrite json_round_trip. Qed.

Lemma perform_reloads (c : call) (t : Tracker) :
  load_portfolio json_load (file t) = Returns (portfolio t) ->
  load_portfolio json_load (file (perform json_dump WriteOk c t))
  = Returns (portfolio (perform json_dump WriteOk c t)).
Proof.
  intros Ht.
  destruct c as [now symbol q pp|now metal q pp|now name q pp|category index|];
    cbn [perform].
  - apply save_portfolio_reloads.
  - unfold add_bullion. destruct (dict_get symbol_map metal); [|exact Ht].
    apply save_portfolio_reloads.
  - apply save_portfolio_reloads.
  - destruct (valid_removal_dec json_dump (portfolio t) category index) as [H|H].
    + rewrite (remove_holding_valid json_dump WriteOk category index t H).
      simpl. now rewrite json_round_trip.
    + now rewrite (remove_holding_invalid json_dump WriteOk category index t H).
  - apply save_portfolio_reloads.
Qed.

(** X15. A tracker built from the file stays in step with the file: after the
    constructor and any sequence of calls whose writes all succeed - calls
    that change nothing such as a removal out of range or an unknown metal
    included - loading the file gives the portfolio in memory. *)
Theorem session_stays_in_step_with_file (on_disk : option Doc) (t : Tracker)
    (steps : list (write_fate * call)) :
  init json_load on_disk = Returns t ->
  Forall (fun step => fst step = WriteOk) steps ->
  load_portfolio json_load (file (session json_dump steps t))
  = Returns (portfolio (session json_dump steps t)).
Proof.
  intros Hinit Hsteps.
  assert (Ht : load_portfolio json_load (file t) = Returns (portfolio t)).
  { unfold init in Hinit. destruct (load_portfolio json_load on_disk) as [p|e] eqn:E;
      [|discriminate].
    simpl in Hinit. injection Hinit as <-. exact E. }
  clear Hinit. revert t Ht.
  induction Hsteps as [|[fate c] steps Hfate _ IH]; intros t Ht; [exact Ht|].
  simpl in Hfate. subst fate. simpl. apply IH. now apply perform_reloads.
Qed.

(** X16. After [clear_portfolio] with a successful write, a tracker built from
    the file starts with three empty categories, whatever was stored
    before. *)
Theorem clear_then_reload_is_empty (t : Tracker) :
  init json_load (file (snd (clear_portfolio json_dump WriteOk t)))
  = Returns {| portfolio := empty_portfolio;
               file := Some (json_dump empty_portfolio) |}.
Proof.
  unfold init. simpl. now rewrite json_round_trip.
Qed.

End FileFacts.

Lemma session_stays_in_step_with_file_witness :
  load_portfolio sample_load
    (file (session sample_dump
             [(WriteOk, AddStock sample_time "aapl" 2 100);
              (WriteOk, RemoveHolding "forex" 7);
              (WriteOk, AddBullion sample_time "Copper" 1 4)]
             (tracker_of equity_and_euro)))
  = Returns (set_stocks equity_and_euro
               [sample_stock "AAPL" 2 100; sample_stock "AAPL" 2 100]).
Proof.
  apply (session_stays_in_step_with_file sample_dump sample_load (fun p => eq_refl)
           (Some equity_and_euro) (tracker_of equity_and_euro)).
  - reflexivity.
  - repeat constructor.
Defined.

Lemma clear_then_reload_is_empty_witness :
  init sample_load (file (snd (clear_portfolio sample_dump WriteOk
                                 (tracker_of mixed_portfolio))))
  = Returns (tracker_of empty_portfolio).
Proof.
  apply (clear_then_reload_is_empty sample_dump sample_load (fun p => eq_refl)).
Defined.

(** ** What the methods raise *)

Section RaiseFacts.

Context {Doc : Type}.
Variable json_dump : Portfolio -> Doc.

Lemma save_portfolio_raises (fate : write_fate) (t : Tracker) (e : exn) :
  fst (save_portfolio json_dump fate t) = Raises e -> e = OSError /\ fate <> WriteOk.
Proof.
  destruct fate; simpl; intros H; [discriminate| |]; injection H as <-;
    split; [reflexivity|discriminate|reflexivity|discriminate].
Qed.

(** X17. The only exceptions of the mutating methods are [OSError] from a write
    that fails and [KeyError] from [add_bullion] with a metal outside the
    symbol map.  [remove_holding] in particular never raises [IndexError]:
    it raises only when the index is valid and the write fails. *)
Theorem mutating_methods_raise_only_on_write_or_metal (fate : write_fate)
    (now name : string) (quantity purchase_price : float) (index : Z) (t : Tracker)
    (e : exn) :
  (fst (add_stock json_dump fate now name quantity purchase_price t) = Raises e ->
   e = OSError /\ fate <> WriteOk)
  /\ (fst (add_forex json_dump fate now name quantity purchase_price t) = Raises e ->
      e = OSError /\ fate <> WriteOk)
  /\ (fst (add_bullion json_dump fate now name quantity purchase_price t) = Raises e ->
      (e = OSError /\ fate <> WriteOk)
      \/ (e = KeyError name /\ dict_get symbol_map name = None))
  /\ (fst (remove_holding json_dump fate name index t) = Raises e ->
      e = OSError /\ fate <> WriteOk /\ valid_removal (portfolio t) name index)
  /\ (fst (clear_portfolio json_dump fate t) = Raises e ->
      e = OSError /\ fate <> WriteOk).
Proof.
  split; [apply save_portfolio_raises|]. split; [apply save_portfolio_raises|].
  split; [|split; [|apply save_portfolio_raises]].
  - unfold add_bullion. destruct (dict_get symbol_map name).
    + intros H. left. now apply save_portfolio_raises in H.
    + simpl. intros H. injection H as <-. now right.
  - destruct (valid_removal_dec json_dump (portfolio t) name index) as [Hv|Hv].
    + rewrite (remove_holding_valid json_dump fate name index t Hv).
      unfold save_and_return_true.
      destruct (save_portfolio json_dump fate _) as [saved t'] eqn:E.
      destruct saved as [[]|e']; simpl; intros H; [discriminate|].
      injection H as <-.
      destruct (save_portfolio_raises fate
                  (with_portfolio t (without_holding (portfolio t) name (Z.to_nat index))) e')
        as [He Hf]; [now rewrite E|].
      split; [exact He|split; [exact Hf|exact Hv]].
    + rewrite (remove_holding_invalid json_dump fate name index t Hv). discriminate.
Qed.

End RaiseFacts.

Lemma mutating_methods_raise_only_on_write_or_metal_witness :
  fst (remove_holding sample_dump OpenFails "stocks" 1 (tracker_of mixed_portfolio))
  = Raises OSError
  /\ valid_removal mixed_portfolio "stocks" 1.
Proof.
  assert (H : fst (remove_holding sample_dump OpenFails "stocks" 1
                     (tracker_of mixed_portfolio)) = Raises OSError) by reflexivity.
  split; [exact H|].
  destruct (mutating_methods_raise_only_on_write_or_metal sample_dump OpenFails
              sample_time "stocks" 1 1 1%Z (tracker_of mixed_portfolio) OSError)
    as (_ & _ & _ & Hremove & _).
  now destruct (Hremove H) as (_ & _ & Hv).
Defined.

(** ** Price lookup: the status *)

(** X18. The status is "Success" exactly when the provider had data, and a price
    other than 0 comes only with the status "Success": the test on the price
    in the valuation never lets in a holding whose lookup failed. *)
Theorem status_tells_whether_data_came (yf : Provider) (symbol : string) :
  (snd (get_current_price yf symbol) = "Success"
   <-> exists close, yf symbol = ProviderClose close)
  /\ (fst (get_current_price yf symbol) <> 0 ->
      snd (get_current_price yf symbol) = "Success").
Proof.
  unfold get_current_price. destruct (yf symbol) as [| |close]; simpl.
  - split; [split; [discriminate|intros [c H]; discriminate]|]. intros H. now destruct H.
  - split; [split; [discriminate|intros [c H]; discriminate]|]. intros H. now destruct H.
  - split; [split; [intros _; now exists close|reflexivity]|intros _; reflexivity].
Qed.

Lemma status_tells_whether_data_came_witness :
  snd (get_current_price sample_market "VNDUSD=X") = "Success"
  /\ snd (get_current_price sample_market "AAPL") = "Success".
Proof.
  split.
  - apply (proj1 (status_tells_whether_data_came sample_market "VNDUSD=X")).
    eexists. reflexivity.
  - apply (proj2 (status_tells_whether_data_came sample_market "AAPL")).
    apply differ_by_zero_test. vm_compute. discriminate.
Defined.


(** ** The symbol shown for a forex holding *)

Lemma upper_ascii_equals_sign (c : ascii) :
  Ascii.eqb (upper_ascii c) "=" = Ascii.eqb c "=".
Proof. destruct c as [[] [] [] [] [] [] [] []]; reflexivity. Qed.

Lemma contains_equals_upper (s : string) :
  contains_char "=" (upper s) = contains_char "=" s.
Proof.
  induction s as [|c s IH]; simpl; [reflexivity|].
  now rewrite upper_ascii_equals_sign, IH.
Qed.

Lemma contains_char_get (c : ascii) (s : string) (i : nat) :
  get i s = Some c -> contains_char c s = true.
Proof.
  revert i. induction s as [|c' s IH]; intros i H; [now destruct i|].
  simpl. destruct i as [|i].
  - simpl in H. injection H as ->. now rewrite Ascii.eqb_refl.
  - simpl in H. rewrite (IH i H). apply orb_true_r.
Qed.

Lemma endswith_needs_equals_sign (s : string) :
  endswith s "=X" = true -> contains_char "=" s = true.
Proof.
  unfold endswith. simpl String.length.
  destruct (2 <=? String.length s)%nat eqn:E; [|discriminate].
  intros H. apply String.eqb_eq in H.
  apply (contains_char_get _ _ (0 + (String.length s - 2))).
  rewrite <- (substring_correct1 s (String.length s - 2) 2 0) by lia. now rewrite H.
Qed.

Lemma replace_suffix_only (s : string) :
  contains_char "=" s = false -> replace "=X" "" (s ++ "=X") = s.
Proof.
  unfold replace. induction s as [|c s IH]; intros H; [reflexivity|].
  simpl in H. apply orb_false_iff in H. destruct H as [Hc Hs].
  cbn [append replace_from prefix].
  destruct (ascii_dec "=" c) as [<-|_]; [discriminate|].
  now rewrite (IH Hs).
Qed.

Section ShownSymbol.

Context {Doc : Type}.
Variable json_dump : Portfolio -> Doc.

(** X20. A pair handed to [add_forex] without any "=" in it is stored with the
    suffix "=X" and shown in the data frame without it: the stored pair is the
    upper-cased input followed by "=X", and the Symbol of its row is the
    upper-cased input. *)
Theorem forex_row_shows_pair_without_suffix (fate : write_fate) (now name : string)
    (quantity purchase_price : float) (t : Tracker) :
  contains_char "=" name = false ->
  exists fx,
    forex (portfolio (snd (add_forex json_dump fate now name quantity purchase_price t)))
    = (forex (portfolio t) ++ [fx])%list
    /\ forex_pair fx = upper name ++ "=X"
    /\ forall yf, row_Symbol (position yf (Currency fx)) = upper name.
Proof.
  intros H.
  assert (Hend : endswith name "=X" = false).
  { destruct (endswith name "=X") eqn:E; [|reflexivity].
    apply endswith_needs_equals_sign in E. congruence. }
  eexists. split; [unfold add_forex; rewrite Hend; destruct fate; reflexivity|].
  split; [reflexivity|]. intros yf. simpl.
  apply replace_suffix_only. now rewrite contains_equals_upper.
Qed.

End ShownSymbol.

Lemma forex_row_shows_pair_without_suffix_witness :
  exists fx,
    forex (portfolio (snd (add_forex sample_dump WriteOk sample_time "gbpusd" 500 1
                             fresh_tracker)))
    = [fx]
    /\ forex_pair fx = "GBPUSD=X"
    /\ row_Symbol (position sample_market (Currency fx)) = "GBPUSD".
Proof.
  destruct (forex_row_shows_pair_without_suffix sample_dump WriteOk sample_time "gbpusd"
              500 1 fresh_tracker) as (fx & Hfx & Hpair & Hrow).
  - reflexivity.
  - exists fx. split; [exact Hfx|]. split; [exact Hpair|]. apply Hrow.
Defined.

(** ** Valuation after an addition *)

Section AddedStock.

Context {Doc : Type}.
Variable json_dump : Portfolio -> Doc.

Lemma holdings_after_add_stock (fate : write_fate) (now symbol : string)
    (quantity purchase_price : float) (t : Tracker) :
  holdings (portfolio (snd (add_stock json_dump fate now symbol quantity purchase_price t)))
  = (map Equity (stocks (portfolio t))
       ++ [Equity {| stock_symbol := upper symbol;
                     stock_quantity := quantity;
                     stock_purchase_price := purchase_price;
                     stock_date_added := now |}]
       ++ map Metal (bullions (portfolio t))
       ++ map Currency (forex (portfolio t)))%list.
Proof.
  unfold add_stock. rewrite save_portfolio_memory. unfold holdings. simpl.
  now rewrite map_app, <- app_assoc.
Qed.

(** X21. How a new stock enters the valuation.  If its lookup gives no
    positive price, the valuation is the one from before the addition.  If
    the price is positive, the data frame has exactly one row more, the row of
    the new stock, placed behind the rows of the stocks stored before and in
    front of the bullion and forex rows; and in a portfolio without bullions
    and forex, [total_invested] has grown by quantity x purchase price and
    [total_current] by quantity x fetched price. *)
Theorem added_stock_enters_valuation (yf : Provider) (fate : write_fate)
    (now symbol : string) (quantity purchase_price : float) (t : Tracker) :
  let p' := portfolio (snd (add_stock json_dump fate now symbol quantity purchase_price t)) in
  let h := Equity {| stock_symbol := upper symbol;
                     stock_quantity := quantity;
                     stock_purchase_price := purchase_price;
                     stock_date_added := now |} in
  exists v v',
    get_portfolio_data yf (portfolio t) = Returns v
    /\ get_portfolio_data yf p' = Returns v'
    /\ ((0 <? fetched_price yf h) = false -> v' = v)
    /\ ((0 <? fetched_price yf h) = true ->
        df v' = (stock_positions yf (stocks (portfolio t))
                   ++ [position yf h]
                   ++ bullion_positions yf (bullions (portfolio t))
                   ++ forex_positions yf (forex (portfolio t)))%list
        /\ List.length (df v') = S (List.length (df v))
        /\ (bullions (portfolio t) = [] -> forex (portfolio t) = [] ->
            total_invested v' = total_invested v + quantity * purchase_price
            /\ total_current v' = total_current v + quantity * fetched_price yf h)).
Proof.
  cbv zeta.
  set (h := Equity {| stock_symbol := upper symbol;
                      stock_quantity := quantity;
                      stock_purchase_price := purchase_price;
                      stock_date_added := now |}).
  rewrite !get_portfolio_data_report. do 2 eexists.
  split; [reflexivity|]. split; [reflexivity|].
  unfold included. rewrite holdings_after_add_stock. fold h.
  unfold holdings. rewrite !filter_app. cbn [filter].
  change (0 <? fetched_price yf h) with (priced yf h).
  split.
  - intros Hp. rewrite Hp. reflexivity.
  - intros Hp. rewrite Hp.
    unfold report. cbn [df total_invested total_current].
    split; [|split].
    + rewrite !map_app, !filter_map_commute, !map_map. reflexivity.
    + rewrite !map_app, !length_app. cbn [map List.length]. lia.
    + intros -> ->. cbn [map filter]. rewrite !app_nil_r, !map_app.
      cbn [map]. rewrite !total_snoc. split; reflexivity.
Qed.

End AddedStock.

Lemma added_stock_enters_valuation_witness :
  exists v',
    get_portfolio_data sample_market
      (portfolio (snd (add_stock sample_dump OpenFails sample_time "tsla" 1 90
                         (tracker_of equity_and_euro))))
    = Returns v'
    /\ map row_Symbol (df v') = ["AAPL"; "TSLA"].
Proof.
  destruct (added_stock_enters_valuation sample_dump sample_market OpenFails sample_time
              "tsla" 1 90 (tracker_of equity_and_euro))
    as (v & v' & _ & Hv' & _ & Hin).
  exists v'. split; [exact Hv'|].
  destruct (Hin eq_refl) as (Hdf & _). rewrite Hdf. reflexivity.
Defined.
